(** * Military-Asset: asset lifecycle and cross-entity consistency

    A shallow embedding of the server's controllers
    (assetController, assignmentController, transferController,
    expenditureController) over a model of the Prisma store described by
    [prisma/schema.prisma].  Tables are finite maps from primary key to
    row; every controller is a function from a request and a store to a
    response and a store. *)

From Stdlib Require Import Ascii String Qcanon.
From stdpp Require Import numbers gmap strings list fin_maps fin_sets.
#[local] Close Scope Qc_scope.
#[local] Close Scope Q_scope.

Set Default Proof Using "Type".
#[local] Set Warnings "-clear-no-such-hyp".
Open Scope string_scope.
Open Scope nat_scope.

(** ** Enumerations of the schema *)

(** Primary keys are [cuid()] values: opaque, generated by the store and
    never empty, so a nullable key is truthy exactly when it is present. *)
Abbreviation Id := positive.

(** [DateTime] columns hold a clock reading. *)
Abbreviation DateTime := nat.

(** [Decimal] columns. *)
Abbreviation Decimal := Qc.

Inductive Role := ADMIN | BASE_COMMANDER | LOGISTICS_OFFICER.

Module AssetStatus.
Inductive t := AVAILABLE | ASSIGNED | IN_TRANSIT | MAINTENANCE | EXPENDED | DECOMMISSIONED.
End AssetStatus.

Module TransferStatus.
Inductive t := PENDING | APPROVED | IN_TRANSIT | COMPLETED | CANCELLED.
End TransferStatus.

Inductive EquipmentType :=
  VEHICLE | WEAPON | AMMUNITION | COMMUNICATION | MEDICAL | SUPPLY | OTHER.

#[global] Instance Role_eq_dec : EqDecision Role.
Proof. solve_decision. Defined.
#[global] Instance AssetStatus_eq_dec : EqDecision AssetStatus.t.
Proof. solve_decision. Defined.
#[global] Instance TransferStatus_eq_dec : EqDecision TransferStatus.t.
Proof. solve_decision. Defined.
#[global] Instance EquipmentType_eq_dec : EqDecision EquipmentType.
Proof. solve_decision. Defined.

(** ** Rows

    One record per model of the schema, keyed in its table by [id].  An
    asset row carries every column of its model.  Of the other models the
    two bookkeeping columns [createdAt] and [updatedAt] are left out: the
    client fills them in by itself, no controller reads them, and nothing
    below speaks of them. *)

Module User.
Record t := mk {
  email : string;
  username : string;
  password : string;
  firstName : string;
  lastName : string;
  role : Role;
  baseId : option Id;
  isActive : bool
}.
End User.

Module Base.
Record t := mk {
  name : string;
  code : string;
  location : string;
  description : option string;
  isActive : bool
}.
End Base.

Module Asset.
Record t := mk {
  serialNumber : string;
  name : string;
  description : option string;
  equipmentType : EquipmentType;
  status : AssetStatus.t;
  baseId : Id;
  purchaseId : option Id;
  value : option Decimal;
  acquisitionDate : option DateTime;
  warrantyExpiry : option DateTime;
  createdAt : DateTime;
  updatedAt : DateTime
}.

(** The [data] argument of [asset.update]: [None] leaves a column as it
    is. *)
Record data := mkData {
  d_serialNumber : option string;
  d_name : option string;
  d_description : option (option string);
  d_equipmentType : option EquipmentType;
  d_status : option AssetStatus.t;
  d_baseId : option Id;
  d_value : option (option Decimal);
  d_acquisitionDate : option (option DateTime);
  d_warrantyExpiry : option (option DateTime)
}.

(** [data: {}] *)
Definition noData : data := mkData None None None None None None None None None.

#[global] Instance data_eq_dec : EqDecision data.
Proof. solve_decision. Defined.

(** The row an update leaves.  [updatedAt] is declared [@updatedAt]: the
    client adds the time of the write, [now], to the data of an update,
    unless the data is empty, in which case it writes nothing. *)
Definition apply (now : DateTime) (d : data) (a : t) : t :=
  {| serialNumber := default (serialNumber a) (d_serialNumber d);
     name := default (name a) (d_name d);
     description := default (description a) (d_description d);
     equipmentType := default (equipmentType a) (d_equipmentType d);
     status := default (status a) (d_status d);
     baseId := default (baseId a) (d_baseId d);
     purchaseId := purchaseId a;
     value := default (value a) (d_value d);
     acquisitionDate := default (acquisitionDate a) (d_acquisitionDate d);
     warrantyExpiry := default (warrantyExpiry a) (d_warrantyExpiry d);
     createdAt := createdAt a;
     updatedAt := if decide (d = noData) then updatedAt a else now |}.

(** [{ status }] and [{ baseId, status }], the two shapes the workflows
    write. *)
Definition setStatus (st : AssetStatus.t) : data :=
  mkData None None None None (Some st) None None None None.
Definition setBaseStatus (b : Id) (st : AssetStatus.t) : data :=
  mkData None None None None (Some st) (Some b) None None None.
End Asset.

Module Transfer.
Record t := mk {
  transferCode : string;
  fromBaseId : Id;
  toBaseId : Id;
  status : TransferStatus.t;
  reason : string;
  notes : option string;
  createdById : Id;
  approvedById : option Id;
  approvedAt : option DateTime;
  completedAt : option DateTime
}.

Record data := mkData {
  d_status : option TransferStatus.t;
  d_notes : option (option string);
  d_approvedById : option (option Id);
  d_approvedAt : option (option DateTime);
  d_completedAt : option (option DateTime)
}.

Definition apply (d : data) (x : t) : t :=
  {| transferCode := transferCode x;
     fromBaseId := fromBaseId x;
     toBaseId := toBaseId x;
     status := default (status x) (d_status d);
     reason := reason x;
     notes := default (notes x) (d_notes d);
     createdById := createdById x;
     approvedById := default (approvedById x) (d_approvedById d);
     approvedAt := default (approvedAt x) (d_approvedAt d);
     completedAt := default (completedAt x) (d_completedAt d) |}.
End Transfer.

Module TransferItem.
Record t := mk {
  transferId : Id;
  assetId : Id;
  quantity : Z;
  notes : option string
}.
End TransferItem.

Module Assignment.
Record t := mk {
  assetId : Id;
  assignedToId : Id;
  baseId : Id;
  assignedAt : DateTime;
  returnedAt : option DateTime;
  purpose : string;
  notes : option string;
  createdById : Id
}.

Record data := mkData {
  d_returnedAt : option (option DateTime);
  d_notes : option (option string)
}.

Definition apply (d : data) (x : t) : t :=
  {| assetId := assetId x;
     assignedToId := assignedToId x;
     baseId := baseId x;
     assignedAt := assignedAt x;
     returnedAt := default (returnedAt x) (d_returnedAt d);
     purpose := purpose x;
     notes := default (notes x) (d_notes d);
     createdById := createdById x |}.
End Assignment.

Module Expenditure.
Record t := mk {
  assetId : Id;
  baseId : Id;
  quantity : Z;
  reason : string;
  description : option string;
  expendedAt : DateTime;
  createdById : Id
}.
End Expenditure.

#[global] Instance User_eq_dec : EqDecision User.t.
Proof. solve_decision. Defined.
#[global] Instance Base_eq_dec : EqDecision Base.t.
Proof. solve_decision. Defined.
#[global] Instance Asset_eq_dec : EqDecision Asset.t.
Proof. solve_decision. Defined.
#[global] Instance Transfer_eq_dec : EqDecision Transfer.t.
Proof. solve_decision. Defined.
#[global] Instance TransferItem_eq_dec : EqDecision TransferItem.t.
Proof. solve_decision. Defined.
#[global] Instance Assignment_eq_dec : EqDecision Assignment.t.
Proof. solve_decision. Defined.
#[global] Instance Expenditure_eq_dec : EqDecision Expenditure.t.
Proof. solve_decision. Defined.

(** ** The store *)

Record Store := mkStore {
  bases : gmap Id Base.t;
  users : gmap Id User.t;
  assets : gmap Id Asset.t;
  transfers : gmap Id Transfer.t;
  transferItems : gmap Id TransferItem.t;
  assignments : gmap Id Assignment.t;
  expenditures : gmap Id Expenditure.t
}.

Definition with_assets (m : gmap Id Asset.t) (s : Store) : Store :=
  mkStore (bases s) (users s) m (transfers s) (transferItems s)
          (assignments s) (expenditures s).
Definition with_transfers (m : gmap Id Transfer.t) (s : Store) : Store :=
  mkStore (bases s) (users s) (assets s) m (transferItems s)
          (assignments s) (expenditures s).
Definition with_transferItems (m : gmap Id TransferItem.t) (s : Store) : Store :=
  mkStore (bases s) (users s) (assets s) (transfers s) m
          (assignments s) (expenditures s).
Definition with_assignments (m : gmap Id Assignment.t) (s : Store) : Store :=
  mkStore (bases s) (users s) (assets s) (transfers s) (transferItems s)
          m (expenditures s).
Definition with_expenditures (m : gmap Id Expenditure.t) (s : Store) : Store :=
  mkStore (bases s) (users s) (assets s) (transfers s) (transferItems s)
          (assignments s) m.

#[global] Instance Store_eq_dec : EqDecision Store.
Proof. solve_decision. Defined.

(** ** The Prisma client

    A database action runs on a store and either yields a value or throws
    one of the client's known request errors.  A single action that throws
    leaves the store as it found it; a sequence of actions that throws
    halfway leaves what the earlier actions wrote, unless it runs inside
    [transaction]. *)

Inductive PrismaError :=
| P2002   (* unique constraint failed *)
| P2003   (* foreign key constraint failed *)
| P2025.  (* record to update or delete does not exist *)

#[global] Instance PrismaError_eq_dec : EqDecision PrismaError.
Proof. solve_decision. Defined.

Definition Db (A : Type) : Type := Store → (PrismaError + A) * Store.

#[global] Instance Db_ret : MRet Db := λ A a s, (inr a, s).
#[global] Instance Db_bind : MBind Db := λ A B k m s,
  match m s with
  | (inl e, s') => (inl e, s')
  | (inr a, s') => k a s'
  end.

(** [prisma.$transaction(async (tx) => ...)]: all or nothing. *)
Definition transaction {A} (body : Db A) : Db A := λ s,
  match body s with
  | (inl e, _) => (inl e, s)
  | (inr a, s') => (inr a, s')
  end.

(** [for (const x of xs) { await f(x) }] *)
Fixpoint forEach {A} (xs : list A) (f : A → Db unit) : Db unit :=
  match xs with
  | [] => mret tt
  | x :: xs' => _ ← f x; forEach xs' f
  end.

Module Prisma.

(** *** Relations (the [include] clauses) *)

(** [asset.assignments] with [where: { returnedAt: null }] *)
Definition openAssignments (assetId : Id) (s : Store) : gmap Id Assignment.t :=
  filter (λ kv, Assignment.assetId kv.2 = assetId ∧ Assignment.returnedAt kv.2 = None)
         (assignments s).

(** [asset.assignments], open and closed *)
Definition assetAssignments (assetId : Id) (s : Store) : gmap Id Assignment.t :=
  filter (λ kv, Assignment.assetId kv.2 = assetId) (assignments s).

(** [asset.transferItems] *)
Definition assetTransferItems (assetId : Id) (s : Store) : gmap Id TransferItem.t :=
  filter (λ kv, TransferItem.assetId kv.2 = assetId) (transferItems s).

(** [asset.expenditures] *)
Definition assetExpenditures (assetId : Id) (s : Store) : gmap Id Expenditure.t :=
  filter (λ kv, Expenditure.assetId kv.2 = assetId) (expenditures s).

(** [transfer.transferItems] *)
Definition transferItemsOf (transferId : Id) (s : Store) : gmap Id TransferItem.t :=
  filter (λ kv, TransferItem.transferId kv.2 = transferId) (transferItems s).

(** *** Foreign keys and unique columns *)

Definition references {A} (table : gmap Id A) (i : Id) : bool :=
  bool_decide (i ∈ dom table).

Definition serialInUse (sn : string) (s : Store) : Prop :=
  map_Exists (λ _ a, Asset.serialNumber a = sn) (assets s).

Definition serialInUseElsewhere (i : Id) (sn : string) (s : Store) : Prop :=
  map_Exists (λ j a, j ≠ i ∧ Asset.serialNumber a = sn) (assets s).

Definition codeInUse (c : string) (s : Store) : Prop :=
  map_Exists (λ _ t, Transfer.transferCode t = c) (transfers s).

Definition itemExists (transferId assetId : Id) (s : Store) : Prop :=
  map_Exists (λ _ it, TransferItem.transferId it = transferId
                      ∧ TransferItem.assetId it = assetId) (transferItems s).

(** *** asset *)

Definition asset_create (a : Asset.t) : Db Id := λ s,
  if decide (serialInUse (Asset.serialNumber a) s) then (inl P2002, s)
  else if decide (Asset.baseId a ∈ dom (bases s)) then
    let i := fresh (dom (assets s)) in
    (inr i, with_assets (<[i := a]> (assets s)) s)
  else (inl P2003, s).

(** [now] is the clock reading at the write. *)
Definition asset_update (now : DateTime) (i : Id) (d : Asset.data) : Db unit := λ s,
  match assets s !! i with
  | None => (inl P2025, s)
  | Some a =>
      if from_option (λ sn, bool_decide (serialInUseElsewhere i sn s)) false
                     (Asset.d_serialNumber d)
      then (inl P2002, s)
      else if from_option (references (bases s)) true (Asset.d_baseId d)
      then (inr tt, with_assets (<[i := Asset.apply now d a]> (assets s)) s)
      else (inl P2003, s)
  end.

(** The relations from TransferItem, Assignment and Expenditure to Asset
    are required and declare no [onDelete], so the store refuses to delete
    an asset that any such row references. *)
Definition asset_delete (i : Id) : Db unit := λ s,
  match assets s !! i with
  | None => (inl P2025, s)
  | Some _ =>
      if decide (assetAssignments i s = ∅ ∧ assetTransferItems i s = ∅
                 ∧ assetExpenditures i s = ∅)
      then (inr tt, with_assets (delete i (assets s)) s)
      else (inl P2003, s)
  end.

(** *** transfer *)

Definition transfer_create (t : Transfer.t) : Db Id := λ s,
  if decide (codeInUse (Transfer.transferCode t) s) then (inl P2002, s)
  else if bool_decide (Transfer.fromBaseId t ∈ dom (bases s)
                  ∧ Transfer.toBaseId t ∈ dom (bases s)
                  ∧ Transfer.createdById t ∈ dom (users s))
             && from_option (references (users s)) true (Transfer.approvedById t)
  then
    let i := fresh (dom (transfers s)) in
    (inr i, with_transfers (<[i := t]> (transfers s)) s)
  else (inl P2003, s).

Definition transfer_update (i : Id) (d : Transfer.data) : Db unit := λ s,
  match transfers s !! i with
  | None => (inl P2025, s)
  | Some t =>
      if from_option (from_option (references (users s)) true) true
                     (Transfer.d_approvedById d)
      then (inr tt, with_transfers (<[i := Transfer.apply d t]> (transfers s)) s)
      else (inl P2003, s)
  end.

(** *** transferItem ([@@unique([transferId, assetId])]) *)

Definition transferItem_create (it : TransferItem.t) : Db Id := λ s,
  if decide (itemExists (TransferItem.transferId it) (TransferItem.assetId it) s)
  then (inl P2002, s)
  else if decide (TransferItem.transferId it ∈ dom (transfers s)
                  ∧ TransferItem.assetId it ∈ dom (assets s))
  then
    let i := fresh (dom (transferItems s)) in
    (inr i, with_transferItems (<[i := it]> (transferItems s)) s)
  else (inl P2003, s).

(** *** assignment *)

Definition assignment_create (x : Assignment.t) : Db Id := λ s,
  if decide (Assignment.assetId x ∈ dom (assets s)
             ∧ Assignment.assignedToId x ∈ dom (users s)
             ∧ Assignment.baseId x ∈ dom (bases s)
             ∧ Assignment.createdById x ∈ dom (users s))
  then
    let i := fresh (dom (assignments s)) in
    (inr i, with_assignments (<[i := x]> (assignments s)) s)
  else (inl P2003, s).

Definition assignment_update (i : Id) (d : Assignment.data) : Db unit := λ s,
  match assignments s !! i with
  | None => (inl P2025, s)
  | Some x => (inr tt, with_assignments (<[i := Assignment.apply d x]> (assignments s)) s)
  end.

(** *** expenditure *)

Definition expenditure_create (x : Expenditure.t) : Db Id := λ s,
  if decide (Expenditure.assetId x ∈ dom (assets s)
             ∧ Expenditure.baseId x ∈ dom (bases s)
             ∧ Expenditure.createdById x ∈ dom (users s))
  then
    let i := fresh (dom (expenditures s)) in
    (inr i, with_expenditures (<[i := x]> (expenditures s)) s)
  else (inl P2003, s).

End Prisma.

(** ** JavaScript values *)

(** A string in a condition: [undefined], [null] and [''] are falsy. *)
Definition truthy (o : option string) : bool :=
  match o with
  | Some s => negb (String.eqb s "")
  | None => false
  end.

(** [x || y] on nullable strings *)
Definition orElse (x y : option string) : option string :=
  if truthy x then x else y.

(** Strings hold the UTF-8 bytes of the JavaScript string.  The white
    space and line terminators of the language, which [trim] strips, are
    U+0009 to U+000D and U+0020 (one byte each), U+00A0 (two bytes), and
    U+1680, U+2000 to U+200A, U+2028, U+2029, U+202F, U+205F, U+3000 and
    U+FEFF (three bytes each). *)
Definition isSpace (c : ascii) : bool :=
  match nat_of_ascii c with
  | 9 | 10 | 11 | 12 | 13 | 32 => true
  | _ => false
  end.

Definition isSpace2 (c1 c2 : ascii) : bool :=
  match nat_of_ascii c1, nat_of_ascii c2 with
  | 194, 160 => true
  | _, _ => false
  end.

Definition isSpace3 (c1 c2 c3 : ascii) : bool :=
  match nat_of_ascii c1, nat_of_ascii c2, nat_of_ascii c3 with
  | 225, 154, 128 => true
  | 226, 128, n => (128 <=? n) && (n <=? 138) || (n =? 168) || (n =? 169) || (n =? 175)
  | 226, 129, 159 => true
  | 227, 128, 128 => true
  | 239, 187, 191 => true
  | _, _, _ => false
  end.

(** Strips the leading characters that [w1], [w2] and [w3] recognise by
    their one, two or three bytes. *)
Fixpoint strip (w1 : ascii → bool) (w2 : ascii → ascii → bool)
    (w3 : ascii → ascii → ascii → bool) (s : string) : string :=
  match s with
  | EmptyString => EmptyString
  | String c1 s1 =>
      if w1 c1 then strip w1 w2 w3 s1
      else match s1 with
           | EmptyString => s
           | String c2 s2 =>
               if w2 c1 c2 then strip w1 w2 w3 s2
               else match s2 with
                    | EmptyString => s
                    | String c3 s3 => if w3 c1 c2 c3 then strip w1 w2 w3 s3 else s
                    end
           end
  end.

Definition trimStart (s : string) : string := strip isSpace isSpace2 isSpace3 s.

(** The same from the end, on the reversed bytes. *)
Definition trimEnd (s : string) : string :=
  String.rev (strip isSpace (λ c2 c1, isSpace2 c1 c2) (λ c3 c2 c1, isSpace3 c1 c2 c3)
                    (String.rev s)).

(** [String.prototype.trim] *)
Definition trim (s : string) : string := trimEnd (trimStart s).

(** The line feed of the template literals *)
Definition LF : string := String (ascii_of_nat 10) EmptyString.

(** [`${old || ''}\n<label>${text}`.trim()] *)
Definition appendNote (old : option string) (label text : string) : string :=
  trim (default "" old +:+ LF +:+ label +:+ text).

(** ** Requests and responses *)

(** [req.user], set by the authentication middleware from the users
    table. *)
Module Caller.
Record t := mk {
  id : Id;
  role : Role;
  baseId : option Id
}.

(** [user.role === 'BASE_COMMANDER' && user.baseId] *)
Definition commanderBase (u : t) : option Id :=
  if decide (role u = BASE_COMMANDER) then baseId u else None.
End Caller.

Record Response := mkResponse {
  statusCode : nat;
  success : bool;
  message : string;
  data : option Id
}.

#[global] Instance Response_eq_dec : EqDecision Response.
Proof. solve_decision. Defined.

(** [res.status(c).json({ success: false, error: { message } })] *)
Definition failure (c : nat) (msg : string) : Response := mkResponse c false msg None.

(** [res.status(c).json({ success: true, data, message })] *)
Definition succeed (c : nat) (msg : string) (d : option Id) : Response :=
  mkResponse c true msg d.

(** The error kinds of the interface, read off the status code a
    controller answers with. *)
Inductive ErrorKind := NotFoundError | ConflictError | ForbiddenError | InternalError.

Definition errorKind (r : Response) : option ErrorKind :=
  if success r then None
  else match statusCode r with
       | 404 => Some NotFoundError
       | 400 => Some ConflictError
       | 403 => Some ForbiddenError
       | _ => Some InternalError
       end.

(** Runs a database action for a controller: [onOk] builds the answer of
    the [try] block, [onErr] that of the [catch] block. *)
Definition respond {A} (m : Db A) (onOk : A → Response) (onErr : PrismaError → Response)
    (s : Store) : Response * Store :=
  match m s with
  | (inr a, s') => (onOk a, s')
  | (inl e, s') => (onErr e, s')
  end.

(** ** assetController

    A controller that reads the clock or writes an asset takes the clock
    reading [now] of its request: the value of [new Date()] in its body and
    the time the client stamps on the asset rows it writes.  The clock is
    read once per request. *)

Module CreateAsset.
Record body := mkBody {
  serialNumber : string;
  name : string;
  description : option string;
  equipmentType : EquipmentType;
  baseId : Id;
  value : option Decimal;
  acquisitionDate : option DateTime;
  warrantyExpiry : option DateTime
}.
Record req := mkReq { body_ : body; user : Caller.t }.
End CreateAsset.

(** [value ? parseFloat(value) : null]: zero is falsy. *)
Definition parseValue (v : option Decimal) : option Decimal :=
  match v with
  | Some q => if decide (q = 0%Qc) then None else Some q
  | None => None
  end.

(** The columns [status], [createdAt] and [updatedAt] of the new row are
    filled in by their defaults in the schema. *)
Definition createAsset (now : DateTime) (r : CreateAsset.req) (s : Store)
    : Response * Store :=
  let b := CreateAsset.body_ r in
  let user := CreateAsset.user r in
  (* Validate base access *)
  let targetBaseId := default (CreateAsset.baseId b) (Caller.commanderBase user) in
  (* Check if base exists *)
  match bases s !! targetBaseId with
  | None => (failure 404 "Base not found", s)
  | Some _ =>
      (* Check if serial number already exists *)
      if decide (Prisma.serialInUse (CreateAsset.serialNumber b) s)
      then (failure 400 "Asset with this serial number already exists", s)
      else
        respond
          (Prisma.asset_create
             {| Asset.serialNumber := CreateAsset.serialNumber b;
                Asset.name := CreateAsset.name b;
                Asset.description := CreateAsset.description b;
                Asset.equipmentType := CreateAsset.equipmentType b;
                Asset.status := AssetStatus.AVAILABLE;
                Asset.baseId := targetBaseId;
                Asset.purchaseId := None;
                Asset.value := parseValue (CreateAsset.value b);
                Asset.acquisitionDate := CreateAsset.acquisitionDate b;
                Asset.warrantyExpiry := CreateAsset.warrantyExpiry b;
                Asset.createdAt := now;
                Asset.updatedAt := now |})
          (λ i, succeed 201 "Asset created successfully" (Some i))
          (λ e, match e with
                | P2002 => failure 400 "Asset with this serial number already exists"
                | _ => failure 500 "Server error creating asset"
                end)
          s
  end.

Module UpdateAsset.
Record body := mkBody {
  serialNumber : option string;
  name : option string;
  description : option string;
  equipmentType : option EquipmentType;
  value : option Decimal;
  acquisitionDate : option DateTime;
  warrantyExpiry : option DateTime;
  status : option AssetStatus.t
}.
Record req := mkReq { id : Id; body_ : body; user : Caller.t }.
End UpdateAsset.

(** [prisma.asset.findFirst({ where: { id, baseId? } })]: a base
    commander with a base only sees the rows of that base. *)
Definition findAssetScoped (user : Caller.t) (i : Id) (s : Store) : option Asset.t :=
  a ← assets s !! i;
  match Caller.commanderBase user with
  | Some b => if decide (Asset.baseId a = b) then Some a else None
  | None => Some a
  end.

Definition updateAsset (now : DateTime) (r : UpdateAsset.req) (s : Store)
    : Response * Store :=
  let id := UpdateAsset.id r in
  let b := UpdateAsset.body_ r in
  match findAssetScoped (UpdateAsset.user r) id s with
  | None => (failure 404 "Asset not found", s)
  | Some existingAsset =>
      (* Check if serial number is being changed and if it already exists *)
      if truthy (UpdateAsset.serialNumber b)
         && bool_decide (UpdateAsset.serialNumber b ≠ Some (Asset.serialNumber existingAsset))
         && bool_decide (Prisma.serialInUse (default "" (UpdateAsset.serialNumber b)) s)
      then (failure 400 "Asset with this serial number already exists", s)
      else
        (* Prepare update data *)
        let updateData :=
          {| Asset.d_serialNumber := UpdateAsset.serialNumber b;
             Asset.d_name := UpdateAsset.name b;
             Asset.d_description := Some <$> UpdateAsset.description b;
             Asset.d_equipmentType := UpdateAsset.equipmentType b;
             Asset.d_status := UpdateAsset.status b;
             Asset.d_baseId := None;
             Asset.d_value := (λ v, parseValue (Some v)) <$> UpdateAsset.value b;
             Asset.d_acquisitionDate := Some <$> UpdateAsset.acquisitionDate b;
             Asset.d_warrantyExpiry := Some <$> UpdateAsset.warrantyExpiry b |} in
        respond
          (Prisma.asset_update now id updateData)
          (λ _, succeed 200 "Asset updated successfully" (Some id))
          (λ e, match e with
                | P2002 => failure 400 "Asset with this serial number already exists"
                | _ => failure 500 "Server error updating asset"
                end)
          s
  end.

Module DeleteAsset.
Record req := mkReq { id : Id; user : Caller.t }.
End DeleteAsset.

Definition deleteAsset (r : DeleteAsset.req) (s : Store) : Response * Store :=
  let id := DeleteAsset.id r in
  match assets s !! id with
  | None => (failure 404 "Asset not found", s)
  | Some asset =>
      (* Check if asset has active assignments *)
      if decide (0 < size (Prisma.openAssignments id s))
      then (failure 400 "Cannot delete asset with active assignments", s)
      (* Check if asset has transfer history *)
      else if decide (0 < size (Prisma.assetTransferItems id s))
      then (failure 400 "Cannot delete asset with transfer history", s)
      (* Check if asset has expenditure records *)
      else if decide (0 < size (Prisma.assetExpenditures id s))
      then (failure 400 "Cannot delete asset with expenditure records", s)
      else
        respond
          (Prisma.asset_delete id)
          (λ _, succeed 200 "Asset deleted successfully" None)
          (λ _, failure 500 "Server error deleting asset")
          s
  end.

(** ** assignmentController *)

Module CreateAssignment.
Record body := mkBody {
  assetId : Id;
  assignedToId : Id;
  baseId : Id;
  purpose : string;
  notes : option string
}.
Record req := mkReq { body_ : body; user : Caller.t }.
End CreateAssignment.

Definition createAssignment (now : DateTime) (r : CreateAssignment.req) (s : Store)
    : Response * Store :=
  let b := CreateAssignment.body_ r in
  let user := CreateAssignment.user r in
  let assetId := CreateAssignment.assetId b in
  (* Validate base access *)
  let targetBaseId := default (CreateAssignment.baseId b) (Caller.commanderBase user) in
  (* Check if asset exists and is available *)
  match assets s !! assetId with
  | None => (failure 404 "Asset not found", s)
  | Some asset =>
      if decide (Asset.baseId asset ≠ targetBaseId)
      then (failure 400 "Asset is not at the specified base", s)
      else if decide (Asset.status asset ≠ AssetStatus.AVAILABLE)
      then (failure 400 "Asset is not available for assignment", s)
      else if decide (0 < size (Prisma.openAssignments assetId s))
      then (failure 400 "Asset is already assigned to someone else", s)
      else
        (* Check if user exists and is at the same base *)
        match users s !! CreateAssignment.assignedToId b with
        | None => (failure 404 "User to assign asset to not found", s)
        | Some assignedUser =>
            if decide (User.baseId assignedUser ≠ Some targetBaseId)
            then (failure 400 "User is not at the same base as the asset", s)
            else
              (* Create assignment and update asset status in a transaction *)
              respond
                (transaction (
                   i ← Prisma.assignment_create
                         {| Assignment.assetId := assetId;
                            Assignment.assignedToId := CreateAssignment.assignedToId b;
                            Assignment.baseId := targetBaseId;
                            Assignment.assignedAt := now;
                            Assignment.returnedAt := None;
                            Assignment.purpose := CreateAssignment.purpose b;
                            Assignment.notes := CreateAssignment.notes b;
                            Assignment.createdById := Caller.id user |};
                   _ ← Prisma.asset_update now assetId (Asset.setStatus AssetStatus.ASSIGNED);
                   mret i))
                (λ i, succeed 201 "Asset assigned successfully" (Some i))
                (λ _, failure 500 "Server error creating assignment")
                s
        end
  end.

Module ReturnAssignment.
Record body := mkBody {
  notes : option string;
  condition : option string
}.
Record req := mkReq { id : Id; body_ : body; user : Caller.t }.
End ReturnAssignment.

(** [prisma.assignment.findFirst({ where: { id, baseId? } })] *)
Definition findAssignmentScoped (user : Caller.t) (i : Id) (s : Store)
    : option Assignment.t :=
  x ← assignments s !! i;
  match Caller.commanderBase user with
  | Some b => if decide (Assignment.baseId x = b) then Some x else None
  | None => Some x
  end.

(** Determine asset status based on condition *)
Definition statusForCondition (condition : option string) : AssetStatus.t :=
  if bool_decide (condition = Some "DAMAGED")
     || bool_decide (condition = Some "NEEDS_MAINTENANCE")
  then AssetStatus.MAINTENANCE
  else if bool_decide (condition = Some "DECOMMISSIONED")
  then AssetStatus.DECOMMISSIONED
  else AssetStatus.AVAILABLE.

Definition returnNotes (old notes : option string) : option string :=
  if truthy notes then Some (appendNote old "Return notes: " (default "" notes))
  else old.

Definition returnAssignment (now : DateTime) (r : ReturnAssignment.req) (s : Store)
    : Response * Store :=
  let id := ReturnAssignment.id r in
  let b := ReturnAssignment.body_ r in
  match findAssignmentScoped (ReturnAssignment.user r) id s with
  | None => (failure 404 "Assignment not found", s)
  | Some assignment =>
      if decide (is_Some (Assignment.returnedAt assignment))
      then (failure 400 "Asset has already been returned", s)
      else
        (* Return assignment and update asset status in a transaction *)
        respond
          (transaction (
             (* Update assignment with return information *)
             _ ← Prisma.assignment_update id
                   {| Assignment.d_returnedAt := Some (Some now);
                      Assignment.d_notes :=
                        Some (returnNotes (Assignment.notes assignment)
                                          (ReturnAssignment.notes b)) |};
             let newStatus := statusForCondition (ReturnAssignment.condition b) in
             (* Update asset status *)
             Prisma.asset_update now (Assignment.assetId assignment)
                                 (Asset.setStatus newStatus)))
          (λ _, succeed 200 "Asset returned successfully" (Some id))
          (λ _, failure 500 "Server error returning asset")
          s
  end.

(** ** expenditureController *)

Module CreateExpenditure.
Record body := mkBody {
  assetId : Id;
  baseId : Id;
  quantity : option Z;
  reason : string;
  description : option string;
  expendedAt : option DateTime
}.
Record req := mkReq { body_ : body; user : Caller.t }.
End CreateExpenditure.

(** The note of an assignment closed by an expenditure *)
Definition expendedNotes (old : option string) : string :=
  appendNote old "Asset expended - automatic return" "".

Definition createExpenditure (now : DateTime) (r : CreateExpenditure.req) (s : Store)
    : Response * Store :=
  let b := CreateExpenditure.body_ r in
  let user := CreateExpenditure.user r in
  let assetId := CreateExpenditure.assetId b in
  (* Validate base access *)
  let targetBaseId := default (CreateExpenditure.baseId b) (Caller.commanderBase user) in
  (* Check if asset exists and is at the correct base *)
  match assets s !! assetId with
  | None => (failure 404 "Asset not found", s)
  | Some asset =>
      let asset_assignments := map_to_list (Prisma.openAssignments assetId s) in
      if decide (Asset.baseId asset ≠ targetBaseId)
      then (failure 400 "Asset is not at the specified base", s)
      else if decide (Asset.status asset = AssetStatus.EXPENDED)
      then (failure 400 "Asset has already been expended", s)
      else
        (* Create expenditure and update asset status in a transaction *)
        respond
          (transaction (
             (* Create expenditure record *)
             i ← Prisma.expenditure_create
                   {| Expenditure.assetId := assetId;
                      Expenditure.baseId := targetBaseId;
                      Expenditure.quantity := default 1%Z (CreateExpenditure.quantity b);
                      Expenditure.reason := CreateExpenditure.reason b;
                      Expenditure.description := CreateExpenditure.description b;
                      Expenditure.expendedAt := default now (CreateExpenditure.expendedAt b);
                      Expenditure.createdById := Caller.id user |};
             (* Update asset status to EXPENDED *)
             _ ← Prisma.asset_update now assetId (Asset.setStatus AssetStatus.EXPENDED);
             (* If asset was assigned, return it automatically *)
             _ ← forEach asset_assignments (λ assignment,
                   Prisma.assignment_update assignment.1
                     {| Assignment.d_returnedAt := Some (Some now);
                        Assignment.d_notes :=
                          Some (Some (expendedNotes (Assignment.notes assignment.2))) |});
             mret i))
          (λ i, succeed 201 "Expenditure recorded successfully" (Some i))
          (λ _, failure 500 "Server error creating expenditure")
          s
  end.

(** ** transferController *)

Module CreateTransfer.
Record item := mkItem {
  assetId : Id;
  quantity : option Z;
  notes : option string
}.
Record body := mkBody {
  fromBaseId : Id;
  toBaseId : Id;
  reason : string;
  notes_ : option string;
  assets_ : list item
}.
Record req := mkReq { body_ : body; user : Caller.t }.

(** [asset.quantity || 1]: an absent or zero quantity counts as one. *)
Definition quantityOr1 (q : option Z) : Z :=
  match q with
  | Some 0%Z | None => 1%Z
  | Some n => n
  end.

Definition row (transferId : Id) (a : item) : TransferItem.t :=
  {| TransferItem.transferId := transferId;
     TransferItem.assetId := assetId a;
     TransferItem.quantity := quantityOr1 (quantity a);
     TransferItem.notes := notes a |}.
End CreateTransfer.

(** [findMany({ where: { id: { in: assetIds }, baseId, status: 'AVAILABLE' } })] *)
Definition availableAssets (assetIds : list Id) (fromBaseId : Id) (s : Store)
    : gmap Id Asset.t :=
  filter (λ kv, kv.1 ∈ assetIds ∧ Asset.baseId kv.2 = fromBaseId
                ∧ Asset.status kv.2 = AssetStatus.AVAILABLE)
         (assets s).

(** The checks that precede the transaction; [Some] is an early answer. *)
Definition createTransfer_validate (r : CreateTransfer.req) (s : Store) : option Response :=
  let b := CreateTransfer.body_ r in
  let user := CreateTransfer.user r in
  let fromBaseId := CreateTransfer.fromBaseId b in
  let toBaseId := CreateTransfer.toBaseId b in
  (* Validate that from and to bases are different *)
  if decide (fromBaseId = toBaseId)
  then Some (failure 400 "Source and destination bases must be different")
  (* Validate base access for base commanders *)
  else if decide (Caller.role user = BASE_COMMANDER ∧ Caller.baseId user ≠ Some fromBaseId)
  then Some (failure 403 "Base commanders can only transfer from their assigned base")
  (* Check if bases exist *)
  else if decide (bases s !! fromBaseId = None ∨ bases s !! toBaseId = None)
  then Some (failure 404 "One or both bases not found")
  else
    (* Validate assets exist and are available *)
    let assetIds := CreateTransfer.assetId <$> CreateTransfer.assets_ b in
    if decide (size (availableAssets assetIds fromBaseId s) ≠ length assetIds)
    then Some (failure 400 "Some assets are not available for transfer")
    else None.

(** Generate unique transfer code: [codes] are the values the successive
    calls of [generateTransferCode] return; [None] when every one of them is
    taken, in which case the loop is still running. *)
Fixpoint uniqueTransferCode (codes : list string) (s : Store) : option string :=
  match codes with
  | [] => None
  | transferCode :: codes' =>
      if decide (Prisma.codeInUse transferCode s)
      then uniqueTransferCode codes' s
      else Some transferCode
  end.

(** The body of the transaction, once the code is chosen *)
Definition createTransfer_body (now : DateTime) (transferCode : string)
    (r : CreateTransfer.req) : Db Id :=
  let b := CreateTransfer.body_ r in
  (* Create transfer *)
  t ← Prisma.transfer_create
        {| Transfer.transferCode := transferCode;
           Transfer.fromBaseId := CreateTransfer.fromBaseId b;
           Transfer.toBaseId := CreateTransfer.toBaseId b;
           Transfer.status := TransferStatus.PENDING;
           Transfer.reason := CreateTransfer.reason b;
           Transfer.notes := CreateTransfer.notes_ b;
           Transfer.createdById := Caller.id (CreateTransfer.user r);
           Transfer.approvedById := None;
           Transfer.approvedAt := None;
           Transfer.completedAt := None |};
  (* Create transfer items and update asset status *)
  _ ← forEach (CreateTransfer.assets_ b) (λ asset,
        _ ← Prisma.transferItem_create (CreateTransfer.row t asset);
        (* Update asset status to IN_TRANSIT *)
        Prisma.asset_update now (CreateTransfer.assetId asset)
                            (Asset.setStatus AssetStatus.IN_TRANSIT));
  mret t.

(** The transaction and the answer.  The code loop only reads, and it runs
    before the first write, so it is taken in front of the body. *)
Definition createTransfer_commit (now : DateTime) (codes : list string)
    (r : CreateTransfer.req) (s : Store) : option (Response * Store) :=
  transferCode ← uniqueTransferCode codes s;
  Some (respond
          (transaction (createTransfer_body now transferCode r))
          (λ t, succeed 201 "Transfer created successfully" (Some t))
          (λ _, failure 500 "Server error creating transfer")
          s).

Definition createTransfer (now : DateTime) (codes : list string)
    (r : CreateTransfer.req) (s : Store) : option (Response * Store) :=
  match createTransfer_validate r s with
  | Some res => Some (res, s)
  | None => createTransfer_commit now codes r s
  end.

Module TransferAction.
(** [notes] is read by approve, [reason] by cancel. *)
Record req := mkReq {
  id : Id;
  notes : option string;
  reason : option string;
  user : Caller.t
}.
End TransferAction.

Definition approveTransfer (now : DateTime) (r : TransferAction.req) (s : Store)
    : Response * Store :=
  let id := TransferAction.id r in
  let user := TransferAction.user r in
  match transfers s !! id with
  | None => (failure 404 "Transfer not found", s)
  | Some transfer =>
      if decide (Transfer.status transfer ≠ TransferStatus.PENDING)
      then (failure 400 "Transfer is not in pending status", s)
      (* Base commanders can only approve transfers to their base *)
      else if decide (Caller.role user = BASE_COMMANDER
                      ∧ Caller.baseId user ≠ Some (Transfer.toBaseId transfer))
      then (failure 403 "Base commanders can only approve transfers to their base", s)
      else
        respond
          (Prisma.transfer_update id
             {| Transfer.d_status := Some TransferStatus.APPROVED;
                Transfer.d_approvedById := Some (Some (Caller.id user));
                Transfer.d_approvedAt := Some (Some now);
                Transfer.d_notes :=
                  Some (orElse (TransferAction.notes r) (Transfer.notes transfer));
                Transfer.d_completedAt := None |})
          (λ _, succeed 200 "Transfer approved successfully" (Some id))
          (λ _, failure 500 "Server error approving transfer")
          s
  end.

Definition completeTransfer (now : DateTime) (r : TransferAction.req) (s : Store)
    : Response * Store :=
  let id := TransferAction.id r in
  let user := TransferAction.user r in
  match transfers s !! id with
  | None => (failure 404 "Transfer not found", s)
  | Some transfer =>
      let transfer_transferItems := map_to_list (Prisma.transferItemsOf id s) in
      if decide (Transfer.status transfer ≠ TransferStatus.APPROVED)
      then (failure 400 "Transfer must be approved before completion", s)
      (* Base commanders can only complete transfers to their base *)
      else if decide (Caller.role user = BASE_COMMANDER
                      ∧ Caller.baseId user ≠ Some (Transfer.toBaseId transfer))
      then (failure 403 "Base commanders can only complete transfers to their base", s)
      else
        (* Complete transfer in a transaction *)
        respond
          (transaction (
             (* Update transfer status *)
             _ ← Prisma.transfer_update id
                   {| Transfer.d_status := Some TransferStatus.COMPLETED;
                      Transfer.d_completedAt := Some (Some now);
                      Transfer.d_notes := None;
                      Transfer.d_approvedById := None;
                      Transfer.d_approvedAt := None |};
             (* Update assets: move to destination base and set status to AVAILABLE *)
             forEach transfer_transferItems (λ item,
               Prisma.asset_update now (TransferItem.assetId item.2)
                 (Asset.setBaseStatus (Transfer.toBaseId transfer) AssetStatus.AVAILABLE))))
          (λ _, succeed 200 "Transfer completed successfully" (Some id))
          (λ _, failure 500 "Server error completing transfer")
          s
  end.

Definition cancelNotes (old reason : option string) : option string :=
  if truthy reason then Some (appendNote old "Cancellation reason: " (default "" reason))
  else old.

Definition cancelTransfer (now : DateTime) (r : TransferAction.req) (s : Store)
    : Response * Store :=
  let id := TransferAction.id r in
  let user := TransferAction.user r in
  match transfers s !! id with
  | None => (failure 404 "Transfer not found", s)
  | Some transfer =>
      let transfer_transferItems := map_to_list (Prisma.transferItemsOf id s) in
      if decide (Transfer.status transfer ≠ TransferStatus.PENDING
                 ∧ Transfer.status transfer ≠ TransferStatus.APPROVED)
      then (failure 400 "Transfer cannot be cancelled in current status", s)
      (* Base commanders can only cancel transfers from their base *)
      else if decide (Caller.role user = BASE_COMMANDER
                      ∧ Caller.baseId user ≠ Some (Transfer.fromBaseId transfer))
      then (failure 403 "Base commanders can only cancel transfers from their base", s)
      else
        (* Cancel transfer in a transaction *)
        respond
          (transaction (
             (* Update transfer status *)
             _ ← Prisma.transfer_update id
                   {| Transfer.d_status := Some TransferStatus.CANCELLED;
                      Transfer.d_notes :=
                        Some (cancelNotes (Transfer.notes transfer) (TransferAction.reason r));
                      Transfer.d_approvedById := None;
                      Transfer.d_approvedAt := None;
                      Transfer.d_completedAt := None |};
             (* Restore assets to AVAILABLE status at original base *)
             forEach transfer_transferItems (λ item,
               Prisma.asset_update now (TransferItem.assetId item.2)
                 (Asset.setStatus AssetStatus.AVAILABLE))))
          (λ _, succeed 200 "Transfer cancelled successfully" (Some id))
          (λ _, failure 500 "Server error cancelling transfer")
          s
  end.

(** ** Interleaving of two requests

    A controller awaits its reads before it opens its transaction, so
    another request may commit in between:
    [createTransfer_stale now codes r seen s] is the request whose checks
    read the store [seen] and whose transaction runs on the store [s].
    [createTransfer] is the case [seen = s]. *)
Definition createTransfer_stale (now : DateTime) (codes : list string)
    (r : CreateTransfer.req) (seen s : Store) : option (Response * Store) :=
  match createTransfer_validate r seen with
  | Some res => Some (res, s)
  | None => createTransfer_commit now codes r s
  end.

(** ** The rows the create operations write *)

Definition targetBase (named : Id) (user : Caller.t) : Id :=
  default named (Caller.commanderBase user).

Definition assignmentRow (now : DateTime) (r : CreateAssignment.req) : Assignment.t :=
  let b := CreateAssignment.body_ r in
  {| Assignment.assetId := CreateAssignment.assetId b;
     Assignment.assignedToId := CreateAssignment.assignedToId b;
     Assignment.baseId := targetBase (CreateAssignment.baseId b) (CreateAssignment.user r);
     Assignment.assignedAt := now;
     Assignment.returnedAt := None;
     Assignment.purpose := CreateAssignment.purpose b;
     Assignment.notes := CreateAssignment.notes b;
     Assignment.createdById := Caller.id (CreateAssignment.user r) |}.

(** The data [returnAssignment] writes on the assignment *)
Definition returnData (now : DateTime) (r : ReturnAssignment.req) (x : Assignment.t)
    : Assignment.data :=
  {| Assignment.d_returnedAt := Some (Some now);
     Assignment.d_notes :=
       Some (returnNotes (Assignment.notes x)
                         (ReturnAssignment.notes (ReturnAssignment.body_ r))) |}.


Definition closeData (now : DateTime) (x : Assignment.t) : Assignment.data :=
  {| Assignment.d_returnedAt := Some (Some now);
     Assignment.d_notes := Some (Some (expendedNotes (Assignment.notes x))) |}.

(** The transfer row [createTransfer] writes *)
Definition transferRow (transferCode : string) (r : CreateTransfer.req) : Transfer.t :=
  let b := CreateTransfer.body_ r in
  {| Transfer.transferCode := transferCode;
     Transfer.fromBaseId := CreateTransfer.fromBaseId b;
     Transfer.toBaseId := CreateTransfer.toBaseId b;
     Transfer.status := TransferStatus.PENDING;
     Transfer.reason := CreateTransfer.reason b;
     Transfer.notes := CreateTransfer.notes_ b;
     Transfer.createdById := Caller.id (CreateTransfer.user r);
     Transfer.approvedById := None;
     Transfer.approvedAt := None;
     Transfer.completedAt := None |}.

(** The asset ids a create-transfer request names *)
Definition requested (r : CreateTransfer.req) : list Id :=
  CreateTransfer.assetId <$> CreateTransfer.assets_ (CreateTransfer.body_ r).

(** The member assets of a transfer: the assets of its items *)
Definition members (transferId : Id) (s : Store) : list Id :=
  (λ item, TransferItem.assetId item.2) <$> map_to_list (Prisma.transferItemsOf transferId s).

(** The data [approveTransfer] and [completeTransfer] write on the transfer *)
Definition approveData (now : DateTime) (r : TransferAction.req) (t : Transfer.t)
    : Transfer.data :=
  {| Transfer.d_status := Some TransferStatus.APPROVED;
     Transfer.d_approvedById := Some (Some (Caller.id (TransferAction.user r)));
     Transfer.d_approvedAt := Some (Some now);
     Transfer.d_notes := Some (orElse (TransferAction.notes r) (Transfer.notes t));
     Transfer.d_completedAt := None |}.

Definition completeData (now : DateTime) : Transfer.data :=
  {| Transfer.d_status := Some TransferStatus.COMPLETED;
     Transfer.d_completedAt := Some (Some now);
     Transfer.d_notes := None;
     Transfer.d_approvedById := None;
     Transfer.d_approvedAt := None |}.

(** The data [cancelTransfer] writes on the transfer *)
Definition cancelData (r : TransferAction.req) (t : Transfer.t) : Transfer.data :=
  {| Transfer.d_status := Some TransferStatus.CANCELLED;
     Transfer.d_notes := Some (cancelNotes (Transfer.notes t) (TransferAction.reason r));
     Transfer.d_approvedById := None;
     Transfer.d_approvedAt := None;
     Transfer.d_completedAt := None |}.

(** A caller may act for base [b]: base commanders only for their own. *)
Definition actsFor (user : Caller.t) (b : Id) : Prop :=
  ¬ (Caller.role user = BASE_COMMANDER ∧ Caller.baseId user ≠ Some b).

#[global] Instance actsFor_dec (user : Caller.t) (b : Id) : Decision (actsFor user b).
Proof. unfold actsFor. apply _. Defined.

(** ** Invariants of the data model *)

(** Referential integrity, as the foreign keys of the schema keep it. *)
Definition wf_store (s : Store) : Prop :=
  map_Forall (λ _ a, Asset.baseId a ∈ dom (bases s)) (assets s)
  ∧ map_Forall (λ _ t, Transfer.fromBaseId t ∈ dom (bases s)
                       ∧ Transfer.toBaseId t ∈ dom (bases s)
                       ∧ Transfer.createdById t ∈ dom (users s)) (transfers s)
  ∧ map_Forall (λ _ it, TransferItem.transferId it ∈ dom (transfers s)
                        ∧ TransferItem.assetId it ∈ dom (assets s)) (transferItems s)
  ∧ map_Forall (λ _ x, Assignment.assetId x ∈ dom (assets s)
                       ∧ Assignment.assignedToId x ∈ dom (users s)
                       ∧ Assignment.baseId x ∈ dom (bases s)
                       ∧ Assignment.createdById x ∈ dom (users s)) (assignments s)
  ∧ map_Forall (λ _ x, Expenditure.assetId x ∈ dom (assets s)
                       ∧ Expenditure.baseId x ∈ dom (bases s)
                       ∧ Expenditure.createdById x ∈ dom (users s)) (expenditures s).

#[global] Instance wf_store_dec (s : Store) : Decision (wf_store s).
Proof. unfold wf_store. apply _. Defined.



(** An asset has at most one assignment with [returnedAt = null]. *)
Definition oneOpenPerAsset (s : Store) : Prop :=
  map_Forall (λ _ x, size (Prisma.openAssignments (Assignment.assetId x) s) ≤ 1)
             (assignments s).

#[global] Instance oneOpenPerAsset_dec (s : Store) : Decision (oneOpenPerAsset s).
Proof. unfold oneOpenPerAsset. apply _. Defined.

(** ** Sample data

    Two bases, an administrator and the commander of the first base, and a
    few assets, after the seed script. *)

Module Sample.
Definition fortLiberty : Base.t :=
  Base.mk "Fort Liberty" "FL001" "North Carolina, USA" None true.
Definition campPendleton : Base.t :=
  Base.mk "Camp Pendleton" "CP002" "California, USA" None true.

Definition adminRow : User.t :=
  User.mk "admin@military.gov" "admin" "$2a$12$" "System" "Administrator"
          ADMIN None true.
Definition commanderRow : User.t :=
  User.mk "commander.fl@military.gov" "cmd_fl" "$2a$12$" "John" "Smith"
          BASE_COMMANDER (Some 1%positive) true.
Definition officerRow : User.t :=
  User.mk "logistics.cp@military.gov" "log_cp" "$2a$12$" "Lisa" "Brown"
          LOGISTICS_OFFICER (Some 2%positive) true.

Definition admin : Caller.t := Caller.mk 1%positive ADMIN None.
Definition commander : Caller.t := Caller.mk 2%positive BASE_COMMANDER (Some 1%positive).

(** Recorded at time 5 and not written since. *)
Definition asset (sn : string) (st : AssetStatus.t) (b : Id) : Asset.t :=
  Asset.mk sn "M4A1 Carbine" (Some "Standard issue rifle") WEAPON st b None None None None
           5 5.

Definition theBases : gmap Id Base.t :=
  {[ 1%positive := fortLiberty; 2%positive := campPendleton ]}.
Definition theUsers : gmap Id User.t :=
  {[ 1%positive := adminRow; 2%positive := commanderRow; 3%positive := officerRow ]}.

(** Two available rifles at Fort Liberty, nothing else recorded. *)
Definition fresh : Store :=
  mkStore theBases theUsers
    {[ 1%positive := asset "WP-001-2024" AssetStatus.AVAILABLE 1%positive;
       2%positive := asset "WP-002-2024" AssetStatus.AVAILABLE 1%positive ]}
    ∅ ∅ ∅ ∅.

Definition assignment (assetId : Id) (returnedAt : option DateTime) : Assignment.t :=
  Assignment.mk assetId 2%positive 1%positive 10 returnedAt
                "Command vehicle for training exercises" None 2%positive.

(** Rifle 1 is held by the commander, rifle 2 has been held and given
    back. *)
Definition assigned : Store :=
  mkStore theBases theUsers
    {[ 1%positive := asset "WP-001-2024" AssetStatus.ASSIGNED 1%positive;
       2%positive := asset "WP-002-2024" AssetStatus.AVAILABLE 1%positive ]}
    ∅ ∅
    {[ 1%positive := assignment 1%positive None;
       2%positive := assignment 2%positive (Some 20) ]}
    ∅.

(** Rifle 1 expended, rifle 2 decommissioned. *)
Definition retired : Store :=
  mkStore theBases theUsers
    {[ 1%positive := asset "WP-001-2024" AssetStatus.EXPENDED 1%positive;
       2%positive := asset "WP-002-2024" AssetStatus.DECOMMISSIONED 1%positive ]}
    ∅ ∅ ∅
    {[ 1%positive := Expenditure.mk 1%positive 1%positive 1%Z "Training" None 30 1%positive ]}.

(** Both rifles on their way to Camp Pendleton under a pending
    transfer. *)
Definition inTransit : Store :=
  mkStore theBases theUsers
    {[ 1%positive := asset "WP-001-2024" AssetStatus.IN_TRANSIT 1%positive;
       2%positive := asset "WP-002-2024" AssetStatus.IN_TRANSIT 1%positive ]}
    {[ 1%positive := Transfer.mk "TRF-LZ1K2-A1B2C" 1%positive 2%positive
                       TransferStatus.PENDING "Redeployment" None 1%positive
                       None None None ]}
    {[ 1%positive := TransferItem.mk 1%positive 1%positive 1%Z None;
       2%positive := TransferItem.mk 1%positive 2%positive 1%Z None ]}
    ∅ ∅.

Definition transferBody (ids : list Id) : CreateTransfer.body :=
  CreateTransfer.mkBody 1%positive 2%positive "Redeployment" None
    ((λ i, CreateTransfer.mkItem i None None) <$> ids).
End Sample.

(** ** Reads by id

    [getAssetById], [getAssignmentById], [getTransferById] and
    [getExpenditureById]: a scoped [findFirst], answered with the row or
    with 404.  They write nothing. *)

Module GetById.
Record req := mkReq { id : Id; user : Caller.t }.
End GetById.

(** [res.json({ success: true, data })] *)
Definition found (i : Id) : Response := succeed 200 "" (Some i).

Definition getAssetById (r : GetById.req) (s : Store) : Response :=
  match findAssetScoped (GetById.user r) (GetById.id r) s with
  | None => failure 404 "Asset not found"
  | Some _ => found (GetById.id r)
  end.

Definition getAssignmentById (r : GetById.req) (s : Store) : Response :=
  match findAssignmentScoped (GetById.user r) (GetById.id r) s with
  | None => failure 404 "Assignment not found"
  | Some _ => found (GetById.id r)
  end.

(** [findFirst({ where: { id, OR: [{ fromBaseId }, { toBaseId }] } })] *)
Definition findTransferScoped (user : Caller.t) (i : Id) (s : Store) : option Transfer.t :=
  t ← transfers s !! i;
  match Caller.commanderBase user with
  | Some b => if decide (Transfer.fromBaseId t = b ∨ Transfer.toBaseId t = b)
              then Some t else None
  | None => Some t
  end.

Definition getTransferById (r : GetById.req) (s : Store) : Response :=
  match findTransferScoped (GetById.user r) (GetById.id r) s with
  | None => failure 404 "Transfer not found"
  | Some _ => found (GetById.id r)
  end.

Definition findExpenditureScoped (user : Caller.t) (i : Id) (s : Store)
    : option Expenditure.t :=
  x ← expenditures s !! i;
  match Caller.commanderBase user with
  | Some b => if decide (Expenditure.baseId x = b) then Some x else None
  | None => Some x
  end.

Definition getExpenditureById (r : GetById.req) (s : Store) : Response :=
  match findExpenditureScoped (GetById.user r) (GetById.id r) s with
  | None => failure 404 "Expenditure not found"
  | Some _ => found (GetById.id r)
  end.

(** ** Middleware (middleware/auth.js) *)

(** What [jwt.verify] makes of the Authorization header: no token, a
    token that does not verify, or the user id the token carries. *)
Inductive Token := NoToken | BadToken | Decoded (id : Id).

(** [authMiddleware]: the caller is read from the users table and must be
    active; [inr] is [req.user] for the handlers that follow. *)
Definition authMiddleware (token : Token) (s : Store) : Response + Caller.t :=
  match token with
  | NoToken => inl (failure 401 "No token provided, authorization denied")
  | BadToken => inl (failure 401 "Token is not valid")
  | Decoded id =>
      match users s !! id with
      | Some user =>
          if User.isActive user
          then inr (Caller.mk id (User.role user) (User.baseId user))
          else inl (failure 401 "Token is not valid or user is inactive")
      | None => inl (failure 401 "Token is not valid or user is inactive")
      end
  end.

(** [authorize(...roles)]; [None] is [next()]. *)
Definition authorize (roles : list Role) (user : option Caller.t) : option Response :=
  match user with
  | None => Some (failure 401 "User not authenticated")
  | Some u =>
      if decide (Caller.role u ∈ roles) then None
      else Some (failure 403 "Access denied. Insufficient permissions.")
  end.

(** [baseAccess], for a route with a [:baseId] parameter *)
Definition baseAccess (baseId : Id) (user : Caller.t) : option Response :=
  if decide (Caller.role user = ADMIN) then None
  else if decide (Caller.role user = BASE_COMMANDER ∧ Caller.baseId user ≠ Some baseId)
  then Some (failure 403 "Access denied. You can only access your assigned base.")
  else if decide (Caller.role user = LOGISTICS_OFFICER ∧ Caller.baseId user ≠ Some baseId)
  then Some (failure 403 "Access denied. You can only access your assigned base.")
  else None.

(** ** Routes (routes/assets.js, assignments.js, transfers.js,
    expenditures.js)

    An endpoint with its validated parameters and body.  The audit
    middleware of a route writes the audit log only, which is no table of
    [Store]. *)

Inductive Endpoint :=
| GET_asset (id : Id)
| POST_assets (b : CreateAsset.body)
| PUT_asset (id : Id) (b : UpdateAsset.body)
| DELETE_asset (id : Id)
| GET_assignment (id : Id)
| POST_assignments (b : CreateAssignment.body)
| PUT_assignment_return (id : Id) (b : ReturnAssignment.body)
| GET_transfer (id : Id)
| POST_transfers (b : CreateTransfer.body)
| PUT_transfer_approve (id : Id) (notes : option string)
| PUT_transfer_complete (id : Id)
| PUT_transfer_cancel (id : Id) (reason : option string)
| GET_expenditure (id : Id)
| POST_expenditures (b : CreateExpenditure.body).

(** The roles a route passes to [authorize]; [None] for a route without
    it. *)
Definition allowedRoles (e : Endpoint) : option (list Role) :=
  match e with
  | GET_asset _ => None
  | POST_assets _ | PUT_asset _ _ => Some [ADMIN; BASE_COMMANDER]
  | DELETE_asset _ => Some [ADMIN]
  | GET_assignment _ | POST_assignments _ | PUT_assignment_return _ _ =>
      Some [ADMIN; BASE_COMMANDER]
  | GET_transfer _ => None
  | POST_transfers _ => Some [ADMIN; BASE_COMMANDER; LOGISTICS_OFFICER]
  | PUT_transfer_approve _ _ | PUT_transfer_complete _ | PUT_transfer_cancel _ _ =>
      Some [ADMIN; BASE_COMMANDER]
  | GET_expenditure _ | POST_expenditures _ => Some [ADMIN; BASE_COMMANDER]
  end.

(** The clock and the codes [generateTransferCode] returns while the
    request is served *)
Record Env := mkEnv { now : DateTime; codes : list string }.

(** The controller of an endpoint *)
Definition controller (env : Env) (e : Endpoint) (user : Caller.t) (s : Store)
    : option (Response * Store) :=
  match e with
  | GET_asset id => Some (getAssetById (GetById.mkReq id user) s, s)
  | POST_assets b => Some (createAsset (now env) (CreateAsset.mkReq b user) s)
  | PUT_asset id b => Some (updateAsset (now env) (UpdateAsset.mkReq id b user) s)
  | DELETE_asset id => Some (deleteAsset (DeleteAsset.mkReq id user) s)
  | GET_assignment id => Some (getAssignmentById (GetById.mkReq id user) s, s)
  | POST_assignments b =>
      Some (createAssignment (now env) (CreateAssignment.mkReq b user) s)
  | PUT_assignment_return id b =>
      Some (returnAssignment (now env) (ReturnAssignment.mkReq id b user) s)
  | GET_transfer id => Some (getTransferById (GetById.mkReq id user) s, s)
  | POST_transfers b => createTransfer (now env) (codes env) (CreateTransfer.mkReq b user) s
  | PUT_transfer_approve id notes =>
      Some (approveTransfer (now env) (TransferAction.mkReq id notes None user) s)
  | PUT_transfer_complete id =>
      Some (completeTransfer (now env) (TransferAction.mkReq id None None user) s)
  | PUT_transfer_cancel id reason =>
      Some (cancelTransfer (now env) (TransferAction.mkReq id None reason user) s)
  | GET_expenditure id => Some (getExpenditureById (GetById.mkReq id user) s, s)
  | POST_expenditures b =>
      Some (createExpenditure (now env) (CreateExpenditure.mkReq b user) s)
  end.

(** A request through [app.use('/api/...', authMiddleware, routes)]:
    authentication, then the route's [authorize], then the controller. *)
Definition api (env : Env) (token : Token) (e : Endpoint) (s : Store)
    : option (Response * Store) :=
  match authMiddleware token s with
  | inl res => Some (res, s)
  | inr user =>
      match from_option (λ roles, authorize roles (Some user)) None (allowedRoles e) with
      | Some res => Some (res, s)
      | None => controller env e user s
      end
  end.

(** Requests served one after the other, each with its clock reading,
    codes and token *)
Fixpoint serve (requests : list (Env * Token * Endpoint)) (s : Store) : option Store :=
  match requests with
  | [] => Some s
  | (env, token, e) :: requests' =>
      match api env token e s with
      | Some (_, s') => serve requests' s'
      | None => None
      end
  end.

(** ** Unique columns of the schema *)

(** [serialNumber @unique], [transferCode @unique] and
    [@@unique([transferId, assetId])] *)
Definition uniqueKeys (s : Store) : Prop :=
  (∀ i j a b, assets s !! i = Some a → assets s !! j = Some b →
              Asset.serialNumber a = Asset.serialNumber b → i = j)
  ∧ (∀ i j t u, transfers s !! i = Some t → transfers s !! j = Some u →
                Transfer.transferCode t = Transfer.transferCode u → i = j)
  ∧ (∀ i j x y, transferItems s !! i = Some x → transferItems s !! j = Some y →
                TransferItem.transferId x = TransferItem.transferId y →
                TransferItem.assetId x = TransferItem.assetId y → i = j).

(** ** Invariants of database actions *)

(** [P] is kept by the action [m], whether it returns or throws. *)
Definition preserves {A} (P : Store → Prop) (m : Db A) : Prop :=
  ∀ s r s', P s → m s = (r, s') → P s'.

(** ** Theorems *)

(** *** The store actions *)

Section actions.
Implicit Types s : Store.

Lemma transaction_inl {A} (body : Db A) s e s' :
  transaction body s = (inl e, s') → s' = s.
Proof.
  unfold transaction. destruct (body s) as [[?|?] ?]; congruence.
Qed.

Lemma transaction_inr {A} (body : Db A) s a s' :
  transaction body s = (inr a, s') → body s = (inr a, s').
Proof.
  unfold transaction. destruct (body s) as [[?|?] ?]; congruence.
Qed.

Lemma bind_inr {A B} (m : Db A) (k : A → Db B) s b s' :
  (m ≫= k) s = (inr b, s') ↔ ∃ a s1, m s = (inr a, s1) ∧ k a s1 = (inr b, s').
Proof.
  unfold mbind, Db_bind. destruct (m s) as [[e|a] s1]; split.
  - congruence.
  - intros (?&?&?&?); congruence.
  - eauto.
  - intros (?&?&[= <- <-]&?); done.
Qed.

Lemma bind_run {A B} (m : Db A) (k : A → Db B) (s : Store) :
  (m ≫= k) s
  = match m s with
    | (inl e, s') => (inl e, s')
    | (inr a, s') => k a s'
    end.
Proof. reflexivity. Qed.

Lemma forEach_cons {A} (x : A) (xs : list A) (f : A → Db unit) (s : Store) :
  forEach (x :: xs) f s
  = match f x s with
    | (inl e, s') => (inl e, s')
    | (inr _, s') => forEach xs f s'
    end.
Proof. reflexivity. Qed.

Lemma size_pos_nonempty {A} (m : gmap Id A) : 0 < size m ↔ m ≠ ∅.
Proof. rewrite <-map_size_non_empty_iff. lia. Qed.
End actions.

(** *** Hard delete of an asset *)

Lemma openAssignments_subseteq i s :
  Prisma.openAssignments i s ⊆ Prisma.assetAssignments i s.
Proof.
  unfold Prisma.openAssignments, Prisma.assetAssignments.
  apply map_filter_subseteq_ext. intros ??? [? _]; done.
Qed.

Lemma openAssignments_empty i s :
  Prisma.assetAssignments i s = ∅ → Prisma.openAssignments i s = ∅.
Proof.
  unfold Prisma.openAssignments, Prisma.assetAssignments.
  rewrite !map_empty_filter. intros H j x Hj [? _]. by apply (H j x).
Qed.

(** What deleteAsset does with an existing asset: it deletes it exactly
    when no assignment (open or closed), no transfer item and no
    expenditure refers to it, removing the asset row and nothing else; a
    refused deletion leaves the store as it was; the refusal is a conflict
    (status 400) when an open assignment, a transfer item or an expenditure
    exists, and the 500 of the [catch] block when closed assignments are
    all that refers to the asset. *)
Lemma deleteAsset_existing (r : DeleteAsset.req) (s : Store) (asset : Asset.t) :
  assets s !! DeleteAsset.id r = Some asset →
  let id := DeleteAsset.id r in
  let out := deleteAsset r s in
  (success out.1 = true ↔
     Prisma.assetAssignments id s = ∅ ∧ Prisma.assetTransferItems id s = ∅
     ∧ Prisma.assetExpenditures id s = ∅)
  ∧ (success out.1 = true → out.2 = with_assets (delete id (assets s)) s)
  ∧ (success out.1 = false → out.2 = s)
  ∧ (Prisma.openAssignments id s ≠ ∅ ∨ Prisma.assetTransferItems id s ≠ ∅
     ∨ Prisma.assetExpenditures id s ≠ ∅ →
     errorKind out.1 = Some ConflictError)
  ∧ (Prisma.assetAssignments id s ≠ ∅ → Prisma.openAssignments id s = ∅ →
     Prisma.assetTransferItems id s = ∅ → Prisma.assetExpenditures id s = ∅ →
     out.1 = failure 500 "Server error deleting asset").
Proof.
  intros Ha. cbv zeta. unfold deleteAsset. rewrite Ha.
  repeat case_decide; simpl.
  - rewrite size_pos_nonempty in *.
    repeat split; try done; intros (?%openAssignments_empty&?&?); done.
  - rewrite size_pos_nonempty in *. repeat split; try done; naive_solver.
  - rewrite size_pos_nonempty in *. repeat split; try done; naive_solver.
  - rewrite !size_pos_nonempty in *.
    unfold respond, Prisma.asset_delete. rewrite Ha.
    case_decide; simpl; repeat split; try done; naive_solver.
Qed.

(** C2: the input at which deleteAsset departs from the claim.  Rifle 2 of
    [Sample.assigned] has one assignment, which is closed, and no transfer
    item and no expenditure.  deleteAsset passes its three checks, the
    first of which counts the open assignments only; the store then refuses
    the delete by the foreign key of the closed assignment, and the answer
    is the 500 of the [catch] block, which is no conflict.  The store is
    unchanged. *)
Lemma C2_deleteAsset_closed_assignment :
  let r := DeleteAsset.mkReq 2%positive Sample.admin in
  Prisma.assetAssignments 2%positive Sample.assigned
  = {[ 2%positive := Sample.assignment 2%positive (Some 20) ]}
  ∧ Prisma.openAssignments 2%positive Sample.assigned = ∅
  ∧ Prisma.assetTransferItems 2%positive Sample.assigned = ∅
  ∧ Prisma.assetExpenditures 2%positive Sample.assigned = ∅
  ∧ deleteAsset r Sample.assigned
    = (failure 500 "Server error deleting asset", Sample.assigned)
  ∧ errorKind (deleteAsset r Sample.assigned).1 ≠ Some ConflictError.
Proof. vm_compute. repeat split; discriminate. Qed.

(** *** Writing one asset row *)

Lemma Asset_apply_setStatus (now : DateTime) (st : AssetStatus.t) (a : Asset.t) :
  Asset.apply now (Asset.setStatus st) a
  = {| Asset.serialNumber := Asset.serialNumber a;
       Asset.name := Asset.name a;
       Asset.description := Asset.description a;
       Asset.equipmentType := Asset.equipmentType a;
       Asset.status := st;
       Asset.baseId := Asset.baseId a;
       Asset.purchaseId := Asset.purchaseId a;
       Asset.value := Asset.value a;
       Asset.acquisitionDate := Asset.acquisitionDate a;
       Asset.warrantyExpiry := Asset.warrantyExpiry a;
       Asset.createdAt := Asset.createdAt a;
       Asset.updatedAt := now |}.
Proof. reflexivity. Qed.

Lemma Asset_apply_setBaseStatus (now : DateTime) (b : Id) (st : AssetStatus.t)
    (a : Asset.t) :
  Asset.apply now (Asset.setBaseStatus b st) a
  = {| Asset.serialNumber := Asset.serialNumber a;
       Asset.name := Asset.name a;
       Asset.description := Asset.description a;
       Asset.equipmentType := Asset.equipmentType a;
       Asset.status := st;
       Asset.baseId := b;
       Asset.purchaseId := Asset.purchaseId a;
       Asset.value := Asset.value a;
       Asset.acquisitionDate := Asset.acquisitionDate a;
       Asset.warrantyExpiry := Asset.warrantyExpiry a;
       Asset.createdAt := Asset.createdAt a;
       Asset.updatedAt := now |}.
Proof. reflexivity. Qed.

Lemma Asset_apply_noData (now : DateTime) (a : Asset.t) :
  Asset.apply now Asset.noData a = a.
Proof. by destruct a. Qed.

Lemma asset_update_setStatus (now : DateTime) (i : Id) (st : AssetStatus.t) (s : Store)
    (a : Asset.t) :
  assets s !! i = Some a →
  Prisma.asset_update now i (Asset.setStatus st) s
  = (inr tt, with_assets (<[i := Asset.apply now (Asset.setStatus st) a]> (assets s)) s).
Proof. intros H. unfold Prisma.asset_update. by rewrite H. Qed.

Lemma asset_update_missing (now : DateTime) (i : Id) (d : Asset.data) (s : Store) :
  assets s !! i = None → Prisma.asset_update now i d s = (inl P2025, s).
Proof. intros H. unfold Prisma.asset_update. by rewrite H. Qed.

Lemma asset_update_inl (now : DateTime) (i : Id) (d : Asset.data) (s s' : Store) e :
  Prisma.asset_update now i d s = (inl e, s') → s' = s.
Proof.
  unfold Prisma.asset_update. destruct (assets s !! i); [|congruence].
  repeat case_match; congruence.
Qed.

(** *** createAssignment *)

Lemma createAssignment_transaction now r s asset :
  let b := CreateAssignment.body_ r in
  let x := assignmentRow now r in
  assets s !! CreateAssignment.assetId b = Some asset →
  transaction (
    i ← Prisma.assignment_create x;
    _ ← Prisma.asset_update now (CreateAssignment.assetId b)
                            (Asset.setStatus AssetStatus.ASSIGNED);
    mret i) s
  = if decide (Assignment.assetId x ∈ dom (assets s)
               ∧ Assignment.assignedToId x ∈ dom (users s)
               ∧ Assignment.baseId x ∈ dom (bases s)
               ∧ Assignment.createdById x ∈ dom (users s))
    then (inr (fresh (dom (assignments s))),
          with_assets (<[CreateAssignment.assetId b :=
                           Asset.apply now (Asset.setStatus AssetStatus.ASSIGNED) asset]>
                         (assets s))
            (with_assignments (<[fresh (dom (assignments s)) := x]> (assignments s)) s))
    else (inl P2003, s).
Proof.
  intros b x Ha. unfold transaction, mbind, Db_bind, Prisma.assignment_create.
  case_decide; [|done].
  rewrite (asset_update_setStatus _ _ _ _ asset) by done. done.
Qed.

(** Every answer of createAssignment for an asset that exists: the four
    rules in the order the code tests them, then the transaction. *)
Lemma createAssignment_cases now r s asset :
  let b := CreateAssignment.body_ r in
  let assetId := CreateAssignment.assetId b in
  let target := targetBase (CreateAssignment.baseId b) (CreateAssignment.user r) in
  assets s !! assetId = Some asset →
  createAssignment now r s
  = if decide (Asset.baseId asset ≠ target)
    then (failure 400 "Asset is not at the specified base", s)
    else if decide (Asset.status asset ≠ AssetStatus.AVAILABLE)
    then (failure 400 "Asset is not available for assignment", s)
    else if decide (Prisma.openAssignments assetId s ≠ ∅)
    then (failure 400 "Asset is already assigned to someone else", s)
    else match users s !! CreateAssignment.assignedToId b with
         | None => (failure 404 "User to assign asset to not found", s)
         | Some assignedUser =>
             if decide (User.baseId assignedUser ≠ Some target)
             then (failure 400 "User is not at the same base as the asset", s)
             else if decide (target ∈ dom (bases s)
                             ∧ Caller.id (CreateAssignment.user r) ∈ dom (users s))
             then (succeed 201 "Asset assigned successfully"
                     (Some (fresh (dom (assignments s)))),
                   with_assets
                     (<[assetId := Asset.apply now (Asset.setStatus AssetStatus.ASSIGNED)
                                     asset]> (assets s))
                     (with_assignments
                        (<[fresh (dom (assignments s)) := assignmentRow now r]>
                           (assignments s)) s))
             else (failure 500 "Server error creating assignment", s)
         end.
Proof.
  cbv zeta. intros Ha. unfold createAssignment, targetBase. rewrite Ha.
  set (target := default _ _).
  destruct (decide (Asset.baseId asset ≠ target)) as [Hb|Hb]; [done|].
  destruct (decide (Asset.status asset ≠ AssetStatus.AVAILABLE)) as [Hs|Hs]; [done|].
  destruct (decide (0 < size _)) as [Ho|Ho].
  { rewrite size_pos_nonempty in Ho. by rewrite decide_True. }
  rewrite size_pos_nonempty in Ho. rewrite (decide_False (P := _ ≠ ∅)) by done.
  destruct (users s !! _) as [assignedUser|] eqn:Hu; [|done].
  destruct (decide (User.baseId assignedUser ≠ Some target)) as [Hub|Hub]; [done|].
  unfold respond.
  pose proof (createAssignment_transaction now r s asset Ha) as Htx.
  cbv zeta in Htx. unfold assignmentRow, targetBase in Htx. fold target in Htx.
  rewrite Htx. clear Htx. simpl.
  destruct (decide (target ∈ dom (bases s) ∧ _)) as [[Ht Hc]|Hn].
  - rewrite decide_True; [done|].
    repeat split; try done; apply elem_of_dom; eauto.
  - rewrite decide_False; [done|]. intros (_ & _ & Ht & Hc). by apply Hn.
Qed.

(** C8: createAssignment succeeds only if the asset is AVAILABLE, has no
    open assignment and is at the target base, and the assigned user is at
    the target base; on success the new open assignment row is written
    together with the asset row, whose status is now ASSIGNED (its other
    columns as before, but for the time of the write), and on any other
    answer nothing is written; a broken rule is answered with status 400
    and the message of a rule that is broken; when all four rules hold (and
    the base and the caller are in the store) the request succeeds. *)
Theorem C8_createAssignment (now : DateTime) (r : CreateAssignment.req) (s : Store)
    (asset : Asset.t) :
  let b := CreateAssignment.body_ r in
  let assetId := CreateAssignment.assetId b in
  let target := targetBase (CreateAssignment.baseId b) (CreateAssignment.user r) in
  let out := createAssignment now r s in
  assets s !! assetId = Some asset →
  (success out.1 = true →
     Asset.status asset = AssetStatus.AVAILABLE
     ∧ Prisma.openAssignments assetId s = ∅
     ∧ Asset.baseId asset = target
     ∧ ∃ assignedUser, users s !! CreateAssignment.assignedToId b = Some assignedUser
                       ∧ User.baseId assignedUser = Some target)
  ∧ (success out.1 = true →
     ∃ i, out.1 = succeed 201 "Asset assigned successfully" (Some i)
          ∧ assignments s !! i = None
          ∧ out.2 = with_assets
                      (<[assetId :=
                           {| Asset.serialNumber := Asset.serialNumber asset;
                              Asset.name := Asset.name asset;
                              Asset.description := Asset.description asset;
                              Asset.equipmentType := Asset.equipmentType asset;
                              Asset.status := AssetStatus.ASSIGNED;
                              Asset.baseId := Asset.baseId asset;
                              Asset.purchaseId := Asset.purchaseId asset;
                              Asset.value := Asset.value asset;
                              Asset.acquisitionDate := Asset.acquisitionDate asset;
                              Asset.warrantyExpiry := Asset.warrantyExpiry asset;
                              Asset.createdAt := Asset.createdAt asset;
                              Asset.updatedAt := now |}]>
                         (assets s))
                      (with_assignments (<[i := assignmentRow now r]> (assignments s)) s)
          ∧ Asset.status <$> assets out.2 !! assetId = Some AssetStatus.ASSIGNED
          ∧ assignments out.2 !! i = Some (assignmentRow now r)
          ∧ Assignment.assetId (assignmentRow now r) = assetId
          ∧ Assignment.returnedAt (assignmentRow now r) = None)
  ∧ (success out.1 = false → out.2 = s)
  ∧ (Asset.baseId asset ≠ target →
     out.1 = failure 400 "Asset is not at the specified base")
  ∧ (Asset.baseId asset = target → Asset.status asset ≠ AssetStatus.AVAILABLE →
     out.1 = failure 400 "Asset is not available for assignment")
  ∧ (Asset.baseId asset = target → Asset.status asset = AssetStatus.AVAILABLE →
     Prisma.openAssignments assetId s ≠ ∅ →
     out.1 = failure 400 "Asset is already assigned to someone else")
  ∧ (∀ assignedUser,
       Asset.baseId asset = target → Asset.status asset = AssetStatus.AVAILABLE →
       Prisma.openAssignments assetId s = ∅ →
       users s !! CreateAssignment.assignedToId b = Some assignedUser →
       (User.baseId assignedUser ≠ Some target →
        out.1 = failure 400 "User is not at the same base as the asset")
       ∧ (User.baseId assignedUser = Some target →
          target ∈ dom (bases s) → Caller.id (CreateAssignment.user r) ∈ dom (users s) →
          success out.1 = true))
  ∧ errorKind (failure 400 "Asset is not at the specified base") = Some ConflictError
  ∧ errorKind (failure 400 "Asset is not available for assignment") = Some ConflictError
  ∧ errorKind (failure 400 "Asset is already assigned to someone else")
    = Some ConflictError
  ∧ errorKind (failure 400 "User is not at the same base as the asset")
    = Some ConflictError.
Proof.
  cbv zeta. intros Ha. rewrite (createAssignment_cases now r s asset Ha).
  set (target := targetBase _ _).
  destruct (decide (Asset.baseId asset ≠ target)) as [Hb|Hb]; simpl.
  { repeat apply conj; try done. }
  apply dec_stable in Hb.
  destruct (decide (Asset.status asset ≠ AssetStatus.AVAILABLE)) as [Hs|Hs]; simpl.
  { repeat apply conj; try done. }
  apply dec_stable in Hs.
  destruct (decide (Prisma.openAssignments _ s ≠ ∅)) as [Ho|Ho]; simpl.
  { repeat apply conj; try done. }
  apply dec_stable in Ho.
  destruct (users s !! _) as [assignedUser|] eqn:Hu; simpl.
  2: { repeat apply conj; try done. }
  destruct (decide (User.baseId assignedUser ≠ Some target)) as [Hub|Hub]; simpl.
  { repeat apply conj; try done. intros ? _ _ _ [= <-]. split; done. }
  apply dec_stable in Hub.
  destruct (decide (target ∈ dom (bases s) ∧ _)) as [[Ht Hc]|Hn]; simpl.
  - repeat apply conj; try done.
    + eauto 10.
    + intros _. eexists. split; [done|]. split; [apply not_elem_of_dom, is_fresh|].
      rewrite !lookup_insert_eq. done.
    + intros ? _ _ _ [= <-]. done.
  - repeat apply conj; try done.
    intros ? _ _ _ [= <-]. split; [done|]. intros _ Ht Hc. by destruct Hn.
Qed.

(** *** returnAssignment *)

Lemma map_size_le_1_singleton {A} (m : gmap Id A) (i : Id) (x : A) :
  size m ≤ 1 → m !! i = Some x → m = {[ i := x ]}.
Proof.
  intros Hsz Hi.
  rewrite <-(insert_delete_id m i x) by done.
  assert (delete i m = ∅) as ->.
  { apply map_size_empty_iff. rewrite map_size_delete_Some by eauto. lia. }
  by rewrite insert_empty.
Qed.

Lemma assignment_update_inl (i : Id) (d : Assignment.data) (s s' : Store) e :
  Prisma.assignment_update i d s = (inl e, s') → s' = s.
Proof. unfold Prisma.assignment_update. case_match; congruence. Qed.

Lemma findAssignmentScoped_Some user i s x :
  findAssignmentScoped user i s = Some x → assignments s !! i = Some x.
Proof.
  unfold findAssignmentScoped. destruct (assignments s !! i); simpl; [|done].
  repeat case_match; congruence.
Qed.

Lemma returnAssignment_transaction now r s x :
  assignments s !! ReturnAssignment.id r = Some x →
  transaction (
    _ ← Prisma.assignment_update (ReturnAssignment.id r) (returnData now r x);
    Prisma.asset_update now (Assignment.assetId x)
      (Asset.setStatus (statusForCondition
                          (ReturnAssignment.condition (ReturnAssignment.body_ r))))) s
  = match assets s !! Assignment.assetId x with
    | Some asset =>
        (inr tt,
         with_assets
           (<[Assignment.assetId x :=
                Asset.apply now
                  (Asset.setStatus
                     (statusForCondition
                        (ReturnAssignment.condition (ReturnAssignment.body_ r)))) asset]>
              (assets s))
           (with_assignments
              (<[ReturnAssignment.id r := Assignment.apply (returnData now r x) x]>
                 (assignments s)) s))
    | None => (inl P2025, s)
    end.
Proof.
  intros Hx. unfold transaction, mbind, Db_bind, Prisma.assignment_update. rewrite Hx.
  destruct (assets s !! Assignment.assetId x) as [asset|] eqn:Ha.
  - by rewrite (asset_update_setStatus _ _ _ _ asset).
  - by rewrite asset_update_missing.
Qed.

(** Every answer of returnAssignment for an assignment the caller may
    see. *)
Lemma returnAssignment_cases now r s x :
  let id := ReturnAssignment.id r in
  findAssignmentScoped (ReturnAssignment.user r) id s = Some x →
  returnAssignment now r s
  = if decide (is_Some (Assignment.returnedAt x))
    then (failure 400 "Asset has already been returned", s)
    else match assets s !! Assignment.assetId x with
         | Some asset =>
             (succeed 200 "Asset returned successfully" (Some id),
              with_assets
                (<[Assignment.assetId x :=
                     Asset.apply now
                       (Asset.setStatus
                          (statusForCondition
                             (ReturnAssignment.condition (ReturnAssignment.body_ r))))
                       asset]> (assets s))
                (with_assignments
                   (<[id := Assignment.apply (returnData now r x) x]> (assignments s)) s))
         | None => (failure 500 "Server error returning asset", s)
         end.
Proof.
  cbv zeta. intros Hf. pose proof (findAssignmentScoped_Some _ _ _ _ Hf) as Hx.
  unfold returnAssignment. rewrite Hf. case_decide; [done|].
  unfold respond.
  pose proof (returnAssignment_transaction now r s x Hx) as Htx.
  unfold returnData in Htx at 1. rewrite Htx.
  by destruct (assets s !! Assignment.assetId x).
Qed.

Lemma statusForCondition_other (condition : option string) :
  condition ≠ Some "DAMAGED" → condition ≠ Some "NEEDS_MAINTENANCE" →
  condition ≠ Some "DECOMMISSIONED" →
  statusForCondition condition = AssetStatus.AVAILABLE.
Proof.
  intros H1 H2 H3. unfold statusForCondition.
  by rewrite !bool_decide_eq_false_2.
Qed.

(** C7 (as amended): returnAssignment succeeds only on an assignment that
    is still open; it does not count the open assignments of the asset, so
    the assignment is the asset's one open assignment only where the store
    has at most one per asset.  On success it stamps [returnedAt] on the
    assignment, appends the return notes, and writes the asset row with the
    status of the condition tag: AVAILABLE for GOOD (and for no tag),
    MAINTENANCE for DAMAGED and NEEDS_MAINTENANCE, DECOMMISSIONED for
    DECOMMISSIONED; nothing else is written.  An assignment already
    returned is answered with the conflict "Asset has already been
    returned", so is a second return after a successful one, and every
    refusal leaves the store as it was. *)
Theorem C7_returnAssignment (now : DateTime) (r : ReturnAssignment.req) (s : Store)
    (x : Assignment.t) :
  let id := ReturnAssignment.id r in
  let condition := ReturnAssignment.condition (ReturnAssignment.body_ r) in
  let out := returnAssignment now r s in
  findAssignmentScoped (ReturnAssignment.user r) id s = Some x →
  (success out.1 = true →
     Assignment.returnedAt x = None
     ∧ Prisma.openAssignments (Assignment.assetId x) s !! id = Some x
     ∧ (oneOpenPerAsset s → Prisma.openAssignments (Assignment.assetId x) s = {[ id := x ]}))
  ∧ (success out.1 = true →
     ∃ asset st,
       assets s !! Assignment.assetId x = Some asset
       ∧ out.2 = with_assets
                   (<[Assignment.assetId x :=
                        {| Asset.serialNumber := Asset.serialNumber asset;
                           Asset.name := Asset.name asset;
                           Asset.description := Asset.description asset;
                           Asset.equipmentType := Asset.equipmentType asset;
                           Asset.status := st;
                           Asset.baseId := Asset.baseId asset;
                           Asset.purchaseId := Asset.purchaseId asset;
                           Asset.value := Asset.value asset;
                           Asset.acquisitionDate := Asset.acquisitionDate asset;
                           Asset.warrantyExpiry := Asset.warrantyExpiry asset;
                           Asset.createdAt := Asset.createdAt asset;
                           Asset.updatedAt := now |}]>
                      (assets s))
                   (with_assignments
                      (<[id :=
                           {| Assignment.assetId := Assignment.assetId x;
                              Assignment.assignedToId := Assignment.assignedToId x;
                              Assignment.baseId := Assignment.baseId x;
                              Assignment.assignedAt := Assignment.assignedAt x;
                              Assignment.returnedAt := Some now;
                              Assignment.purpose := Assignment.purpose x;
                              Assignment.notes :=
                                returnNotes (Assignment.notes x)
                                  (ReturnAssignment.notes (ReturnAssignment.body_ r));
                              Assignment.createdById := Assignment.createdById x |}]>
                         (assignments s)) s)
       ∧ (condition = Some "GOOD" → st = AssetStatus.AVAILABLE)
       ∧ (condition = Some "DAMAGED" → st = AssetStatus.MAINTENANCE)
       ∧ (condition = Some "NEEDS_MAINTENANCE" → st = AssetStatus.MAINTENANCE)
       ∧ (condition = Some "DECOMMISSIONED" → st = AssetStatus.DECOMMISSIONED)
       ∧ (condition = None → st = AssetStatus.AVAILABLE)
       ∧ Asset.status <$> assets out.2 !! Assignment.assetId x = Some st
       ∧ Assignment.returnedAt <$> assignments out.2 !! id = Some (Some now)
       ∧ ∀ now', returnAssignment now' r out.2
                 = (failure 400 "Asset has already been returned", out.2))
  ∧ (Assignment.returnedAt x = None → Assignment.assetId x ∈ dom (assets s) →
     out.1 = succeed 200 "Asset returned successfully" (Some id))
  ∧ (is_Some (Assignment.returnedAt x) →
     out = (failure 400 "Asset has already been returned", s)
     ∧ errorKind out.1 = Some ConflictError)
  ∧ (success out.1 = false → out.2 = s).
Proof.
  cbv zeta. intros Hf. pose proof (findAssignmentScoped_Some _ _ _ _ Hf) as Hx.
  rewrite (returnAssignment_cases now r s x Hf).
  destruct (decide (is_Some (Assignment.returnedAt x))) as [Hr|Hr]; simpl.
  { repeat apply conj; try done. intros Hn. rewrite Hn in Hr. by destruct Hr. }
  assert (Assignment.returnedAt x = None) as Hopen.
  { destruct (Assignment.returnedAt x); [destruct Hr; eauto|done]. }
  destruct (assets s !! Assignment.assetId x) as [asset|] eqn:Ha; simpl.
  - repeat apply conj; try done.
    + intros _. split; [done|].
      assert (Prisma.openAssignments (Assignment.assetId x) s !! ReturnAssignment.id r
              = Some x) as Hox by (by apply map_lookup_filter_Some).
      split; [done|]. intros Hinv.
      apply map_size_le_1_singleton; [by apply (Hinv _ _ Hx)|done].
    + intros _.
      exists asset, (statusForCondition (ReturnAssignment.condition (ReturnAssignment.body_ r))).
      repeat apply conj; try done.
      * by intros ->.
      * by intros ->.
      * by intros ->.
      * by intros ->.
      * by intros ->.
      * by rewrite lookup_insert_eq.
      * by rewrite lookup_insert_eq.
      * intros now'. unfold returnAssignment, findAssignmentScoped. simpl.
        rewrite lookup_insert_eq. simpl.
        unfold findAssignmentScoped in Hf. rewrite Hx in Hf. simpl in Hf.
        destruct (Caller.commanderBase _); [case_decide; [|done]|];
          rewrite decide_True; eauto.
  - repeat apply conj; try done.
    intros _ [? ?]%elem_of_dom. congruence.
Qed.

(** C7, as first stated, fails: rifle 1 of this store has two open
    assignments, which no constraint of the schema excludes, and the
    return of one of them succeeds. *)
Lemma C7_return_with_two_open_assignments :
  let s := with_assignments
             {[ 1%positive := Sample.assignment 1%positive None;
                2%positive := Sample.assignment 1%positive None ]} Sample.assigned in
  let r := ReturnAssignment.mkReq 1%positive (ReturnAssignment.mkBody None (Some "GOOD"))
                                  Sample.admin in
  ¬ (success (returnAssignment 40 r s).1 = true →
     size (Prisma.openAssignments 1%positive s) = 1).
Proof.
  intros s r H.
  assert (success (returnAssignment 40 r s).1 = true) as Hok by reflexivity.
  apply H in Hok. vm_compute in Hok. discriminate.
Qed.


(** *** Loops that write asset rows *)

Lemma Asset_apply_idemp (now : DateTime) (d : Asset.data) (a : Asset.t) :
  Asset.apply now d (Asset.apply now d a) = Asset.apply now d a.
Proof.
  unfold Asset.apply. destruct (decide (d = Asset.noData)) as [->|?]; simpl.
  - done.
  - by destruct d as [[] [] [] [] [] [] [] [] []].
Qed.

Lemma asset_update_ok (now : DateTime) (i : Id) (d : Asset.data) (s : Store)
    (a : Asset.t) :
  assets s !! i = Some a →
  Asset.d_serialNumber d = None →
  from_option (Prisma.references (bases s)) true (Asset.d_baseId d) = true →
  Prisma.asset_update now i d s
  = (inr tt, with_assets (<[i := Asset.apply now d a]> (assets s)) s).
Proof.
  intros Ha Hsn Hfk. unfold Prisma.asset_update. by rewrite Ha, Hsn, Hfk.
Qed.

(** Writing the same data on every asset of a list: when the assets all
    exist the loop succeeds, touches the assets table only, and changes
    exactly the listed rows. *)
Lemma forEach_asset_update {X} (now : DateTime) (f : X → Id) (d : Asset.data)
    (l : list X) (s : Store) :
  Asset.d_serialNumber d = None →
  from_option (Prisma.references (bases s)) true (Asset.d_baseId d) = true →
  Forall (λ x, f x ∈ dom (assets s)) l →
  ∃ m', forEach l (λ x, Prisma.asset_update now (f x) d) s = (inr tt, with_assets m' s)
        ∧ ∀ i, m' !! i = if decide (i ∈ f <$> l)
                         then Asset.apply now d <$> assets s !! i
                         else assets s !! i.
Proof.
  intros Hsn. revert s. induction l as [|x l IH]; intros s Hfk Hall.
  - exists (assets s). split; [by destruct s|]. intros i. by rewrite decide_False by set_solver.
  - apply Forall_cons in Hall as [[a Ha]%elem_of_dom Hall].
    set (s1 := with_assets (<[f x := Asset.apply now d a]> (assets s)) s).
    destruct (IH s1) as (m' & Hrun & Hm'); [done| |].
    { eapply Forall_impl; [exact Hall|]. intros y Hy. simpl.
      rewrite dom_insert. set_solver. }
    exists m'. split.
    + simpl. unfold mbind, Db_bind. rewrite (asset_update_ok _ _ _ _ a) by done.
      fold s1. by rewrite Hrun.
    + intros i. rewrite Hm'. simpl.
      destruct (decide (i = f x)) as [->|Hne].
      * rewrite lookup_insert_eq, Ha. simpl. rewrite Asset_apply_idemp.
        rewrite (decide_True (P := f x ∈ f x :: _)) by set_solver. by case_decide.
      * rewrite lookup_insert_ne by done.
        destruct (decide (i ∈ f <$> l)).
        -- by rewrite decide_True by set_solver.
        -- by rewrite decide_False by set_solver.
Qed.

Lemma elem_of_members (j transferId : Id) (s : Store) :
  j ∈ members transferId s ↔
  ∃ i item, transferItems s !! i = Some item
            ∧ TransferItem.transferId item = transferId
            ∧ TransferItem.assetId item = j.
Proof.
  unfold members, Prisma.transferItemsOf. rewrite list_elem_of_fmap. split.
  - intros ([i item] & -> & Hin). apply elem_of_map_to_list in Hin.
    apply map_lookup_filter_Some in Hin as [? ?]. eauto.
  - intros (i & item & Hi & Ht & Hj). exists (i, item). split; [done|].
    apply elem_of_map_to_list. by apply map_lookup_filter_Some.
Qed.

Lemma transfer_update_plain (i : Id) (d : Transfer.data) (s : Store) (t : Transfer.t) :
  transfers s !! i = Some t →
  Transfer.d_approvedById d = None →
  Prisma.transfer_update i d s
  = (inr tt, with_transfers (<[i := Transfer.apply d t]> (transfers s)) s).
Proof. intros Ht Hd. unfold Prisma.transfer_update. by rewrite Ht, Hd. Qed.

Lemma asset_update_inr (now : DateTime) (i : Id) (d : Asset.data) (s s' : Store) :
  Prisma.asset_update now i d s = (inr tt, s') →
  ∃ a, assets s !! i = Some a
       ∧ s' = with_assets (<[i := Asset.apply now d a]> (assets s)) s.
Proof.
  unfold Prisma.asset_update. destruct (assets s !! i) as [a|]; [|done].
  repeat case_match; try done. intros [= <-]. eauto.
Qed.

Lemma forEach_asset_update_inv {X} (now : DateTime) (f : X → Id) (d : Asset.data)
    (l : list X) (s s' : Store) :
  forEach l (λ x, Prisma.asset_update now (f x) d) s = (inr tt, s') →
  Forall (λ x, f x ∈ dom (assets s)) l.
Proof.
  revert s. induction l as [|x l IH]; intros s Hrun; [constructor|].
  simpl in Hrun. apply bind_inr in Hrun as ([] & s1 & Hx & Hrun).
  apply asset_update_inr in Hx as (a & Ha & ->).
  constructor; [by apply elem_of_dom|].
  apply IH in Hrun. eapply Forall_impl; [exact Hrun|].
  intros y. simpl. rewrite dom_insert. intros [->%elem_of_singleton|?]%elem_of_union; [|done].
  by apply elem_of_dom.
Qed.

(** *** cancelTransfer *)

(** What the transaction of cancelTransfer does on a transfer that may be
    cancelled: when every member asset exists it rewrites the transfer row
    and the member assets, and nothing else; otherwise it fails and nothing
    is written. *)
Lemma cancelTransfer_run now r s transfer :
  let id := TransferAction.id r in
  transfers s !! id = Some transfer →
  Transfer.status transfer = TransferStatus.PENDING
  ∨ Transfer.status transfer = TransferStatus.APPROVED →
  actsFor (TransferAction.user r) (Transfer.fromBaseId transfer) →
  if decide (Forall (λ j, j ∈ dom (assets s)) (members id s))
  then ∃ m', cancelTransfer now r s
             = (succeed 200 "Transfer cancelled successfully" (Some id),
                with_assets m'
                  (with_transfers
                     (<[id := Transfer.apply (cancelData r transfer) transfer]> (transfers s))
                     s))
             ∧ ∀ j, m' !! j = if decide (j ∈ members id s)
                              then Asset.apply now (Asset.setStatus AssetStatus.AVAILABLE)
                                     <$> assets s !! j
                              else assets s !! j
  else cancelTransfer now r s = (failure 500 "Server error cancelling transfer", s).
Proof.
  intros id Ht Hlegal Hacts. unfold cancelTransfer. fold id. rewrite Ht.
  rewrite (decide_False (P := _ ≠ _ ∧ _)) by (intros [? ?]; destruct Hlegal; done).
  rewrite (decide_False (P := _ = _ ∧ _)) by done.
  unfold members.
  set (l := map_to_list (Prisma.transferItemsOf id s)).
  set (f := λ item : Id * TransferItem.t, TransferItem.assetId item.2).
  set (s1 := with_transfers
               (<[id := Transfer.apply (cancelData r transfer) transfer]> (transfers s)) s).
  unfold respond, transaction. rewrite bind_run.
  rewrite (transfer_update_plain _ _ _ transfer) by done.
  fold (cancelData r transfer). fold s1.
  case_decide as Hall.
  - rewrite Forall_fmap in Hall.
    destruct (forEach_asset_update now f (Asset.setStatus AssetStatus.AVAILABLE) l s1)
      as (m' & Hrun & Hm'); [done|done|done|].
    exists m'. split; [|done]. subst f. by rewrite Hrun.
  - destruct (forEach l _ s1) as [[e|[]] s2] eqn:Hrun; [done|].
    destruct Hall. rewrite Forall_fmap.
    by apply (forEach_asset_update_inv now f _ _ _ _ Hrun).
Qed.

Lemma cancelTransfer_failure now r s :
  success (cancelTransfer now r s).1 = false → (cancelTransfer now r s).2 = s.
Proof.
  unfold cancelTransfer. destruct (transfers s !! _) as [t|]; [|done].
  repeat case_decide; try done.
  unfold respond. destruct (transaction _ s) as [[e|[]] s2] eqn:Htx; [|done].
  intros _. by apply transaction_inl in Htx.
Qed.

(** C5 (as amended): cancelTransfer succeeds only on a PENDING or
    APPROVED transfer; on success the transfer is CANCELLED, every member
    asset is the row it was with the status AVAILABLE and the time of the
    write in [updatedAt], base and every other column as before, and no
    other row of the store changes; a refusal changes nothing; a PENDING or
    APPROVED transfer whose member assets exist is cancelled for a caller
    who may act for the source base. *)
Theorem C5_cancelTransfer (now : DateTime) (r : TransferAction.req) (s : Store)
    (transfer : Transfer.t) :
  let id := TransferAction.id r in
  let out := cancelTransfer now r s in
  transfers s !! id = Some transfer →
  (success out.1 = true →
     (Transfer.status transfer = TransferStatus.PENDING
      ∨ Transfer.status transfer = TransferStatus.APPROVED)
     ∧ transfers out.2 = <[id := Transfer.apply (cancelData r transfer) transfer]> (transfers s)
     ∧ Transfer.status (Transfer.apply (cancelData r transfer) transfer)
       = TransferStatus.CANCELLED
     ∧ (∀ j, j ∈ members id s →
          ∃ a, assets s !! j = Some a
               ∧ assets out.2 !! j
                 = Some {| Asset.serialNumber := Asset.serialNumber a;
                           Asset.name := Asset.name a;
                           Asset.description := Asset.description a;
                           Asset.equipmentType := Asset.equipmentType a;
                           Asset.status := AssetStatus.AVAILABLE;
                           Asset.baseId := Asset.baseId a;
                           Asset.purchaseId := Asset.purchaseId a;
                           Asset.value := Asset.value a;
                           Asset.acquisitionDate := Asset.acquisitionDate a;
                           Asset.warrantyExpiry := Asset.warrantyExpiry a;
                           Asset.createdAt := Asset.createdAt a;
                           Asset.updatedAt := now |})
     ∧ (∀ j, j ∉ members id s → assets out.2 !! j = assets s !! j)
     ∧ bases out.2 = bases s ∧ users out.2 = users s
     ∧ transferItems out.2 = transferItems s
     ∧ assignments out.2 = assignments s ∧ expenditures out.2 = expenditures s)
  ∧ (success out.1 = false → out.2 = s)
  ∧ (Transfer.status transfer ≠ TransferStatus.PENDING →
     Transfer.status transfer ≠ TransferStatus.APPROVED →
     out.1 = failure 400 "Transfer cannot be cancelled in current status")
  ∧ (Transfer.status transfer = TransferStatus.PENDING
     ∨ Transfer.status transfer = TransferStatus.APPROVED →
     actsFor (TransferAction.user r) (Transfer.fromBaseId transfer) →
     Forall (λ j, j ∈ dom (assets s)) (members id s) →
     out.1 = succeed 200 "Transfer cancelled successfully" (Some id)).
Proof.
  cbv zeta. intros Ht. split; [|split; [apply cancelTransfer_failure|]].
  2: { split.
       - intros Hp Ha. unfold cancelTransfer. rewrite Ht. by rewrite decide_True.
       - intros Hlegal Hacts Hall.
         pose proof (cancelTransfer_run now r s transfer Ht Hlegal Hacts) as Hrun.
         cbv zeta in Hrun. rewrite decide_True in Hrun by done.
         destruct Hrun as (m' & -> & _). done. }
  intros Hok.
  assert (Transfer.status transfer = TransferStatus.PENDING
          ∨ Transfer.status transfer = TransferStatus.APPROVED) as Hlegal.
  { revert Hok. unfold cancelTransfer. rewrite Ht.
    destruct (decide (_ ∧ _)) as [|Hst]; [done|]. intros _.
    destruct (Transfer.status transfer); auto; destruct Hst; done. }
  assert (actsFor (TransferAction.user r) (Transfer.fromBaseId transfer)) as Hacts.
  { revert Hok. unfold cancelTransfer. rewrite Ht.
    destruct (decide (_ ∧ _)); [done|]. by destruct (decide (_ ∧ _)). }
  pose proof (cancelTransfer_run now r s transfer Ht Hlegal Hacts) as Hrun.
  cbv zeta in Hrun. case_decide as Hall; [|by rewrite Hrun in Hok].
  destruct Hrun as (m' & Hrun & Hm'). rewrite Hrun. simpl.
  repeat apply conj; try done.
  - intros j Hj.
    assert (j ∈ dom (assets s)) as [a Ha]%elem_of_dom
      by (by apply (proj1 (Forall_forall _ _) Hall)).
    exists a. split; [done|]. by rewrite Hm', decide_True, Ha.
  - intros j Hj. by rewrite Hm', decide_False.
Qed.

(** C5, as first stated, fails: cancelling the pending transfer of
    [Sample.inTransit] at time 70 succeeds, and rifle 1, a member, is not
    the row it was with only its status changed: its [updatedAt] column,
    5 before, is 70 afterwards. *)
Lemma C5_cancelTransfer_rewrites_updatedAt :
  let r := TransferAction.mkReq 1%positive None (Some "Mission scrubbed") Sample.commander in
  let out := cancelTransfer 70 r Sample.inTransit in
  ¬ (success out.1 = true →
     ∀ j a, j ∈ members 1%positive Sample.inTransit →
       assets Sample.inTransit !! j = Some a →
       assets out.2 !! j
       = Some {| Asset.serialNumber := Asset.serialNumber a;
                 Asset.name := Asset.name a;
                 Asset.description := Asset.description a;
                 Asset.equipmentType := Asset.equipmentType a;
                 Asset.status := AssetStatus.AVAILABLE;
                 Asset.baseId := Asset.baseId a;
                 Asset.purchaseId := Asset.purchaseId a;
                 Asset.value := Asset.value a;
                 Asset.acquisitionDate := Asset.acquisitionDate a;
                 Asset.warrantyExpiry := Asset.warrantyExpiry a;
                 Asset.createdAt := Asset.createdAt a;
                 Asset.updatedAt := Asset.updatedAt a |}).
Proof.
  intros r out H.
  assert (success out.1 = true) as Hok by reflexivity.
  specialize (H Hok 1%positive
                (Sample.asset "WP-001-2024" AssetStatus.IN_TRANSIT 1%positive)).
  assert (1%positive ∈ members 1%positive Sample.inTransit) as Hmem.
  { apply (bool_decide_unpack _). vm_compute. exact I. }
  specialize (H Hmem eq_refl). vm_compute in H. discriminate.
Qed.


(** *** createTransfer: the availability check *)

Lemma availableAssets_lookup ids from s j a :
  availableAssets ids from s !! j = Some a ↔
  assets s !! j = Some a ∧ j ∈ ids ∧ Asset.baseId a = from
  ∧ Asset.status a = AssetStatus.AVAILABLE.
Proof. unfold availableAssets. by rewrite map_lookup_filter_Some. Qed.

(** As many rows found as ids asked for: the ids are distinct and each is
    an AVAILABLE asset of the source base. *)
Lemma availableAssets_complete ids from s :
  size (availableAssets ids from s) = length ids →
  NoDup ids
  ∧ ∀ j, j ∈ ids → ∃ a, assets s !! j = Some a ∧ Asset.baseId a = from
                        ∧ Asset.status a = AssetStatus.AVAILABLE.
Proof.
  intros Hsz. set (m := availableAssets ids from s) in *.
  assert ((map_to_list m).*1 ≡ₚ ids) as Hperm.
  { apply submseteq_length_Permutation.
    - apply NoDup_submseteq; [apply NoDup_fst_map_to_list|].
      intros j [[j' a] [-> Hin]]%list_elem_of_fmap. simpl.
      apply elem_of_map_to_list, availableAssets_lookup in Hin. tauto.
    - rewrite length_fmap, length_map_to_list. lia. }
  split.
  - rewrite <-Hperm. apply NoDup_fst_map_to_list.
  - intros j Hj. rewrite <-Hperm in Hj.
    apply list_elem_of_fmap in Hj as [[j' a] [-> Hin]]. simpl.
    apply elem_of_map_to_list, availableAssets_lookup in Hin. exists a. tauto.
Qed.


Lemma createTransfer_validate_None r s :
  createTransfer_validate r s = None ↔
  let b := CreateTransfer.body_ r in
  CreateTransfer.fromBaseId b ≠ CreateTransfer.toBaseId b
  ∧ actsFor (CreateTransfer.user r) (CreateTransfer.fromBaseId b)
  ∧ is_Some (bases s !! CreateTransfer.fromBaseId b)
  ∧ is_Some (bases s !! CreateTransfer.toBaseId b)
  ∧ size (availableAssets (requested r) (CreateTransfer.fromBaseId b) s)
    = length (requested r).
Proof.
  unfold createTransfer_validate, actsFor, requested. simpl.
  rewrite <-!not_eq_None_Some.
  destruct (decide (CreateTransfer.fromBaseId _ = _)); [naive_solver|].
  destruct (decide (Caller.role _ = _ ∧ _)); [naive_solver|].
  destruct (decide (_ ∨ _)); [naive_solver|].
  destruct (decide (size _ ≠ _)) as [|Hsz]; [naive_solver|].
  apply dec_stable in Hsz. naive_solver.
Qed.



(** *** createTransfer: the transaction *)

Lemma transfer_create_inr t s i s' :
  Prisma.transfer_create t s = (inr i, s') →
  i = fresh (dom (transfers s))
  ∧ s' = with_transfers (<[i := t]> (transfers s)) s
  ∧ transfers s !! i = None.
Proof.
  unfold Prisma.transfer_create. repeat case_match; try done.
  intros [= <- <-]. repeat split. apply not_elem_of_dom, is_fresh.
Qed.

Lemma transferItem_create_inr it s i s' :
  Prisma.transferItem_create it s = (inr i, s') →
  s' = with_transferItems (<[i := it]> (transferItems s)) s
  ∧ transferItems s !! i = None
  ∧ TransferItem.assetId it ∈ dom (assets s).
Proof.
  unfold Prisma.transferItem_create. repeat case_decide; try done.
  intros [= <- <-]. repeat split; [|tauto]. apply not_elem_of_dom, is_fresh.
Qed.

(** The loop over the requested assets, when it runs to its end: one new
    item per requested asset, under keys that were free, and the requested
    assets set IN_TRANSIT; nothing else is written. *)
Lemma createTransfer_loop_inr (now : DateTime) (t : Id) (items : list CreateTransfer.item)
    (s s' : Store) :
  forEach items (λ asset,
    _ ← Prisma.transferItem_create (CreateTransfer.row t asset);
    Prisma.asset_update now (CreateTransfer.assetId asset)
                        (Asset.setStatus AssetStatus.IN_TRANSIT)) s = (inr tt, s') →
  ∃ (iids : list Id) (m' : gmap Id Asset.t),
    s' = with_assets m'
           (with_transferItems
              (list_to_map (zip iids (CreateTransfer.row t <$> items)) ∪ transferItems s) s)
    ∧ length iids = length items
    ∧ NoDup iids
    ∧ Forall (λ i, transferItems s !! i = None) iids
    ∧ Forall (λ a, CreateTransfer.assetId a ∈ dom (assets s)) items
    ∧ ∀ j, m' !! j = if decide (j ∈ CreateTransfer.assetId <$> items)
                     then Asset.apply now (Asset.setStatus AssetStatus.IN_TRANSIT)
                            <$> assets s !! j
                     else assets s !! j.
Proof.
  revert s. induction items as [|x items IH]; intros s Hrun.
  - injection Hrun as <-. exists [], (assets s). simpl.
    rewrite (left_id_L ∅ (∪)). repeat split; try constructor. by destruct s.
  - simpl in Hrun. apply bind_inr in Hrun as ([] & s1 & Hx & Hrun).
    apply bind_inr in Hx as (i & s0 & Hitem & Hup).
    apply transferItem_create_inr in Hitem as (-> & Hi & Hdom).
    apply asset_update_inr in Hup as (a & Ha & ->). simpl in Ha, Hdom.
    apply IH in Hrun as (iids & m' & -> & Hlen & Hnd & Hfresh & Hex & Hm').
    simpl in Hfresh, Hex, Hm'.
    assert (i ∉ iids) as Hni.
    { intros Hin. apply (proj1 (Forall_forall _ _) Hfresh) in Hin.
      by rewrite lookup_insert_eq in Hin. }
    exists (i :: iids), m'. repeat split.
    + simpl. unfold with_assets, with_transferItems. simpl. f_equal.
      rewrite <-insert_union_l. rewrite <-insert_union_r; [done|].
      apply not_elem_of_list_to_map. intros Hin. apply Hni.
      apply list_elem_of_fmap in Hin as ([i' it] & -> & Hin). simpl.
      by apply elem_of_zip_l in Hin.
    + simpl. by rewrite Hlen.
    + by constructor.
    + constructor; [done|]. eapply Forall_impl; [exact Hfresh|].
      intros i' Hi'. simpl in Hi'. by apply lookup_insert_None in Hi' as [? _].
    + constructor; [done|]. eapply Forall_impl; [exact Hex|].
      intros y. simpl. rewrite dom_insert.
      intros [->%elem_of_singleton|?]%elem_of_union; [by apply elem_of_dom|done].
    + intros j. rewrite Hm'. simpl.
      destruct (decide (j = CreateTransfer.assetId x)) as [->|Hne].
      * rewrite lookup_insert_eq, Ha. simpl. rewrite Asset_apply_idemp.
        rewrite (decide_True (P := CreateTransfer.assetId x ∈ _ :: _)) by set_solver.
        by case_decide.
      * rewrite lookup_insert_ne by done.
        destruct (decide (j ∈ CreateTransfer.assetId <$> items)).
        -- by rewrite decide_True by set_solver.
        -- by rewrite decide_False by set_solver.
Qed.

Lemma createTransfer_validate_failure r s res :
  createTransfer_validate r s = Some res → success res = false.
Proof.
  unfold createTransfer_validate. repeat case_decide; by intros [= <-].
Qed.

Lemma createTransfer_body_inr now code r s t s' :
  createTransfer_body now code r s = (inr t, s') →
  let b := CreateTransfer.body_ r in
  ∃ (iids : list Id) (m' : gmap Id Asset.t),
    transfers s !! t = None
    ∧ s' = with_assets m'
             (with_transferItems
                (list_to_map (zip iids (CreateTransfer.row t <$> CreateTransfer.assets_ b))
                   ∪ transferItems s)
                (with_transfers (<[t := transferRow code r]> (transfers s)) s))
    ∧ length iids = length (CreateTransfer.assets_ b)
    ∧ NoDup iids
    ∧ Forall (λ i, transferItems s !! i = None) iids
    ∧ Forall (λ j, j ∈ dom (assets s)) (requested r)
    ∧ ∀ j, m' !! j = if decide (j ∈ requested r)
                     then Asset.apply now (Asset.setStatus AssetStatus.IN_TRANSIT)
                            <$> assets s !! j
                     else assets s !! j.
Proof.
  unfold createTransfer_body. intros Hrun. simpl.
  apply bind_inr in Hrun as (t' & s1 & Hcreate & Hrun).
  apply bind_inr in Hrun as ([] & s2 & Hloop & Hret).
  injection Hret as <- <-.
  apply transfer_create_inr in Hcreate as (-> & -> & Hfresh).
  apply createTransfer_loop_inr in Hloop
    as (iids & m' & -> & Hlen & Hnd & Hfr & Hex & Hm').
  exists iids, m'. repeat split; try done.
  unfold requested. by rewrite Forall_fmap.
Qed.



(** The member assets of a transfer just created are the requested ones:
    no earlier item can point at a transfer that did not exist. *)
Lemma created_members (s : Store) (tid : Id) (iids : list Id)
    (items : list CreateTransfer.item) (m : gmap Id TransferItem.t) :
  wf_store s →
  transfers s !! tid = None →
  length iids = length items →
  NoDup iids →
  m = list_to_map (zip iids (CreateTransfer.row tid <$> items)) ∪ transferItems s →
  ∀ j, (∃ i item, m !! i = Some item ∧ TransferItem.transferId item = tid
                  ∧ TransferItem.assetId item = j)
       ↔ j ∈ CreateTransfer.assetId <$> items.
Proof.
  intros (_ & _ & Hfk & _) Hfresh Hlen Hnd -> j. split.
  - intros (i & item & Hi & Ht & Hj).
    apply lookup_union_Some_raw in Hi as [Hi|[_ Hi]].
    + apply elem_of_list_to_map_2, elem_of_zip_r in Hi.
      apply list_elem_of_fmap in Hi as (x & -> & Hx). simpl in Hj. subst j.
      apply list_elem_of_fmap. eauto.
    + apply Hfk in Hi as [Hdom _]. rewrite Ht in Hdom.
      apply elem_of_dom in Hdom as [? ?]. congruence.
  - intros (x & -> & Hx)%list_elem_of_fmap.
    apply list_elem_of_lookup in Hx as [k Hk].
    destruct (lookup_lt_is_Some_2 iids k) as [i Hi].
    { rewrite Hlen. by eapply lookup_lt_Some. }
    exists i, (CreateTransfer.row tid x). split; [|done].
    apply lookup_union_Some_l, elem_of_list_to_map_1.
    + rewrite fst_zip; [done|]. rewrite length_fmap. lia.
    + apply list_elem_of_lookup. exists k.
      apply lookup_zip_with_Some. eexists _, _. repeat split; [done|].
      by rewrite list_lookup_fmap, Hk.
Qed.



(** What a transaction of createTransfer that succeeded wrote *)
Lemma createTransfer_commit_inr now codes r s res s' :
  createTransfer_commit now codes r s = Some (res, s') →
  success res = true →
  let b := CreateTransfer.body_ r in
  ∃ tid code iids m',
    res = succeed 201 "Transfer created successfully" (Some tid)
    ∧ uniqueTransferCode codes s = Some code
    ∧ transfers s !! tid = None
    ∧ s' = with_assets m'
             (with_transferItems
                (list_to_map (zip iids (CreateTransfer.row tid <$> CreateTransfer.assets_ b))
                   ∪ transferItems s)
                (with_transfers (<[tid := transferRow code r]> (transfers s)) s))
    ∧ length iids = length (CreateTransfer.assets_ b)
    ∧ NoDup iids
    ∧ Forall (λ i, transferItems s !! i = None) iids
    ∧ Forall (λ j, j ∈ dom (assets s)) (requested r)
    ∧ ∀ j, m' !! j = if decide (j ∈ requested r)
                     then Asset.apply now (Asset.setStatus AssetStatus.IN_TRANSIT)
                            <$> assets s !! j
                     else assets s !! j.
Proof.
  intros Hrun Hok. cbv zeta. unfold createTransfer_commit in Hrun.
  destruct (uniqueTransferCode codes s) as [code|]; [|done]. simpl in Hrun.
  unfold respond in Hrun.
  destruct (transaction _ s) as [[e|t] s2] eqn:Htx; injection Hrun as <- <-; [done|].
  apply transaction_inr, createTransfer_body_inr in Htx
    as (iids & m' & Hfresh & -> & Hlen & Hndi & Hfr & Hex & Hm').
  exists t, code, iids, m'. done.
Qed.

(** What a successful createTransfer found and what it wrote *)
Lemma createTransfer_success now codes r s res s' :
  createTransfer now codes r s = Some (res, s') →
  success res = true →
  let b := CreateTransfer.body_ r in
  CreateTransfer.fromBaseId b ≠ CreateTransfer.toBaseId b
  ∧ is_Some (bases s !! CreateTransfer.fromBaseId b)
  ∧ is_Some (bases s !! CreateTransfer.toBaseId b)
  ∧ (∀ j, j ∈ requested r →
       ∃ a, assets s !! j = Some a
            ∧ Asset.status a = AssetStatus.AVAILABLE
            ∧ Asset.baseId a = CreateTransfer.fromBaseId b
            ∧ assets s' !! j
              = Some {| Asset.serialNumber := Asset.serialNumber a;
                        Asset.name := Asset.name a;
                        Asset.description := Asset.description a;
                        Asset.equipmentType := Asset.equipmentType a;
                        Asset.status := AssetStatus.IN_TRANSIT;
                        Asset.baseId := Asset.baseId a;
                        Asset.purchaseId := Asset.purchaseId a;
                        Asset.value := Asset.value a;
                        Asset.acquisitionDate := Asset.acquisitionDate a;
                        Asset.warrantyExpiry := Asset.warrantyExpiry a;
                        Asset.createdAt := Asset.createdAt a;
                        Asset.updatedAt := now |})
  ∧ (∀ j, j ∉ requested r → assets s' !! j = assets s !! j)
  ∧ ∃ tid code iids,
      res = succeed 201 "Transfer created successfully" (Some tid)
      ∧ transfers s !! tid = None
      ∧ transfers s' = <[tid := transferRow code r]> (transfers s)
      ∧ Transfer.status (transferRow code r) = TransferStatus.PENDING
      ∧ length iids = length (CreateTransfer.assets_ b)
      ∧ NoDup iids
      ∧ (∀ i, i ∈ iids → transferItems s !! i = None)
      ∧ transferItems s'
        = list_to_map (zip iids (CreateTransfer.row tid <$> CreateTransfer.assets_ b))
            ∪ transferItems s
      ∧ bases s' = bases s ∧ users s' = users s
      ∧ assignments s' = assignments s ∧ expenditures s' = expenditures s.
Proof.
  intros Hrun Hok. cbv zeta. unfold createTransfer in Hrun.
  destruct (createTransfer_validate r s) as [res0|] eqn:Hval.
  { injection Hrun as <- <-. apply createTransfer_validate_failure in Hval. congruence. }
  apply createTransfer_validate_None in Hval as (Hne & _ & Hfrom & Hto & Hsz).
  apply availableAssets_complete in Hsz as [Hnd Havail].
  apply createTransfer_commit_inr in Hrun
    as (t & code & iids & m' & -> & _ & Hfresh & -> & Hlen & Hndi & Hfr & Hex & Hm');
    [|done].
  repeat apply conj; try done.
  - intros j Hj. destruct (Havail j Hj) as (a & Ha & Hb & Hs).
    exists a. repeat split; try done. simpl. by rewrite Hm', decide_True, Ha.
  - intros j Hj. simpl. by rewrite Hm', decide_False.
  - exists t, code, iids. repeat split; try done.
    intros i Hi. by apply (proj1 (Forall_forall _ _) Hfr).
Qed.

(** The transaction is what makes the failure clean.  Rifle 2 is deleted
    after the request's checks and before its transaction: the body alone
    stops at the second item with the transfer row, the first item and the
    first status change written; inside the transaction nothing is left and
    the answer is the 500 of the [catch] block. *)
Lemma createTransfer_partial_failure_rolled_back :
  let r := CreateTransfer.mkReq (Sample.transferBody [1%positive; 2%positive])
                                Sample.admin in
  let s := with_assets (delete 2%positive (assets Sample.fresh)) Sample.fresh in
  (createTransfer_body 40 "TRF-LZ1K2-A1B2C" r s).1 = inl P2003
  ∧ size (transfers (createTransfer_body 40 "TRF-LZ1K2-A1B2C" r s).2) = 1
  ∧ size (transferItems (createTransfer_body 40 "TRF-LZ1K2-A1B2C" r s).2) = 1
  ∧ createTransfer_stale 40 ["TRF-LZ1K2-A1B2C"] r Sample.fresh s
    = Some (failure 500 "Server error creating transfer", s).
Proof. vm_compute. done. Qed.

Lemma createTransfer_stale_same now codes r s :
  createTransfer_stale now codes r s s = createTransfer now codes r s.
Proof. reflexivity. Qed.

(** *** createTransfer: when it succeeds *)






(** *** approveTransfer and completeTransfer *)

Lemma approveTransfer_ok now r s t :
  transfers s !! TransferAction.id r = Some t →
  Transfer.status t = TransferStatus.PENDING →
  actsFor (TransferAction.user r) (Transfer.toBaseId t) →
  Caller.id (TransferAction.user r) ∈ dom (users s) →
  approveTransfer now r s
  = (succeed 200 "Transfer approved successfully" (Some (TransferAction.id r)),
     with_transfers
       (<[TransferAction.id r := Transfer.apply (approveData now r t) t]> (transfers s)) s).
Proof.
  intros Ht Hst Hacts Hu. unfold approveTransfer. rewrite Ht.
  rewrite decide_False by (by rewrite Hst; intros ?).
  rewrite decide_False by done.
  unfold respond, Prisma.transfer_update. rewrite Ht. simpl.
  unfold Prisma.references. by rewrite bool_decide_eq_true_2.
Qed.

Lemma completeTransfer_refused now r s t :
  transfers s !! TransferAction.id r = Some t →
  Transfer.status t ≠ TransferStatus.APPROVED →
  completeTransfer now r s
  = (failure 400 "Transfer must be approved before completion", s).
Proof. intros Ht Hst. unfold completeTransfer. rewrite Ht. by rewrite decide_True. Qed.

Lemma completeTransfer_success now r s :
  success (completeTransfer now r s).1 = true →
  ∃ t, transfers s !! TransferAction.id r = Some t
       ∧ Transfer.status t = TransferStatus.APPROVED.
Proof.
  unfold completeTransfer. destruct (transfers s !! _) as [t|]; [|done].
  case_decide as Hst; [done|]. eauto.
Qed.

Lemma completeTransfer_failure now r s :
  success (completeTransfer now r s).1 = false → (completeTransfer now r s).2 = s.
Proof.
  unfold completeTransfer. destruct (transfers s !! _) as [t|]; [|done].
  repeat case_decide; try done.
  unfold respond. destruct (transaction _ s) as [[e|[]] s2] eqn:Htx; [|done].
  intros _. by apply transaction_inl in Htx.
Qed.

Lemma completeTransfer_ok now r s t :
  let id := TransferAction.id r in
  transfers s !! id = Some t →
  Transfer.status t = TransferStatus.APPROVED →
  actsFor (TransferAction.user r) (Transfer.toBaseId t) →
  Transfer.toBaseId t ∈ dom (bases s) →
  (∀ j, j ∈ members id s → j ∈ dom (assets s)) →
  ∃ m', completeTransfer now r s
        = (succeed 200 "Transfer completed successfully" (Some id),
           with_assets m'
             (with_transfers (<[id := Transfer.apply (completeData now) t]> (transfers s)) s))
        ∧ ∀ j, m' !! j = if decide (j ∈ members id s)
                         then Asset.apply now
                                (Asset.setBaseStatus (Transfer.toBaseId t) AssetStatus.AVAILABLE)
                                <$> assets s !! j
                         else assets s !! j.
Proof.
  intros id Ht Hst Hacts Hbase Hex. unfold completeTransfer. fold id. rewrite Ht.
  rewrite decide_False by (by rewrite Hst; intros ?).
  rewrite decide_False by done.
  set (l := map_to_list (Prisma.transferItemsOf id s)).
  set (f := λ item : Id * TransferItem.t, TransferItem.assetId item.2).
  set (s1 := with_transfers (<[id := Transfer.apply (completeData now) t]> (transfers s)) s).
  destruct (forEach_asset_update now f
              (Asset.setBaseStatus (Transfer.toBaseId t) AssetStatus.AVAILABLE) l s1)
    as (m' & Hrun & Hm').
  - done.
  - simpl. unfold Prisma.references. by rewrite bool_decide_eq_true_2.
  - apply Forall_forall. intros x Hx. apply Hex. unfold members. fold l.
    apply list_elem_of_fmap. eauto.
  - exists m'. split; [|done].
    unfold respond, transaction, mbind, Db_bind.
    rewrite (transfer_update_plain _ _ _ t) by done.
    subst s1 f. unfold completeData in *. by rewrite Hrun.
Qed.

(** C4: after a successful createTransfer from base X to base Y, approve
    and then complete, each by a caller who may act for Y, both succeed;
    afterwards every member asset is at base Y with status AVAILABLE and
    the transfer is COMPLETED with its completion time set; complete is
    accepted only for an APPROVED transfer and otherwise leaves every row as
    it was. *)
Theorem C4_transfer_round_trip (codes : list string) (rc : CreateTransfer.req)
    (s s1 : Store) (res1 : Response) (tid : Id)
    (now nowA nowC : DateTime) (ra rk : TransferAction.req) :
  let X := CreateTransfer.fromBaseId (CreateTransfer.body_ rc) in
  let Y := CreateTransfer.toBaseId (CreateTransfer.body_ rc) in
  wf_store s →
  createTransfer now codes rc s = Some (res1, s1) →
  success res1 = true →
  data res1 = Some tid →
  TransferAction.id ra = tid → actsFor (TransferAction.user ra) Y →
  Caller.id (TransferAction.user ra) ∈ dom (users s) →
  TransferAction.id rk = tid → actsFor (TransferAction.user rk) Y →
  let out2 := approveTransfer nowA ra s1 in
  let out3 := completeTransfer nowC rk out2.2 in
  success out2.1 = true
  ∧ success out3.1 = true
  ∧ (∀ j, j ∈ members tid s1 ↔ j ∈ requested rc)
  ∧ (∀ j, j ∈ members tid s1 →
       ∃ a, assets out3.2 !! j = Some a
            ∧ Asset.baseId a = Y ∧ Asset.status a = AssetStatus.AVAILABLE)
  ∧ (∃ t, transfers out3.2 !! tid = Some t
          ∧ Transfer.status t = TransferStatus.COMPLETED
          ∧ Transfer.completedAt t = Some nowC
          ∧ Transfer.fromBaseId t = X ∧ Transfer.toBaseId t = Y)
  ∧ (∀ now r s0 t, transfers s0 !! TransferAction.id r = Some t →
                   Transfer.status t ≠ TransferStatus.APPROVED →
                   completeTransfer now r s0
                   = (failure 400 "Transfer must be approved before completion", s0))
  ∧ (∀ now r s0, success (completeTransfer now r s0).1 = true →
                 ∃ t, transfers s0 !! TransferAction.id r = Some t
                      ∧ Transfer.status t = TransferStatus.APPROVED)
  ∧ (∀ now r s0, success (completeTransfer now r s0).1 = false →
                 (completeTransfer now r s0).2 = s0).
Proof.
  intros X Y Hwf Hcreate Hok Hdata Hida HactsA HuA Hidk HactsK.
  destruct (createTransfer_success now codes rc s res1 s1 Hcreate Hok) as (Hne & HX & [by_ HY] & Hreq & Hother & tid' & code & iids & -> & Hfresh
                        & Htr & Hpend & Hlen & Hnd & Hfr & Hitems & Hb & Hu & _ & _).
  simpl in Hdata. injection Hdata as ->.
  assert (∀ j, j ∈ members tid s1 ↔ j ∈ requested rc) as Hmem.
  { intros j. rewrite elem_of_members.
    by apply (created_members s tid iids _ _ Hwf Hfresh Hlen Hnd Hitems). }
  assert (transfers s1 !! tid = Some (transferRow code rc)) as Ht1.
  { by rewrite Htr, lookup_insert_eq. }
  cbv zeta.
  rewrite (approveTransfer_ok nowA ra s1 (transferRow code rc));
    [|by rewrite Hida|done|done|by rewrite Hu].
  simpl. set (t2 := Transfer.apply (approveData nowA ra (transferRow code rc)) _).
  set (s2 := with_transfers _ s1).
  destruct (completeTransfer_ok nowC rk s2 t2) as (m' & Hrun & Hm').
  { subst s2. simpl. by rewrite Hidk, Hida, lookup_insert_eq. }
  { done. }
  { done. }
  { subst s2. simpl. rewrite Hb. apply elem_of_dom. eauto. }
  { intros j Hj. subst s2. rewrite Hidk in Hj. apply Hmem, Hreq in Hj as (a & _ & _ & _ & Ha).
    simpl. apply elem_of_dom. eauto. }
  rewrite Hrun. simpl. rewrite Hidk.
  repeat apply conj; try done.
  - intros j Hj. pose proof Hj as Hj'. apply Hmem, Hreq in Hj' as (a & _ & _ & _ & Ha).
    rewrite Hm'. rewrite decide_True by (by subst s2; rewrite Hidk).
    subst s2. simpl. rewrite Ha. simpl. eauto.
  - eexists. rewrite lookup_insert_eq. split; [done|]. done.
  - apply completeTransfer_refused.
  - apply completeTransfer_success.
  - apply completeTransfer_failure.
Qed.

(** *** createExpenditure *)

Lemma assignment_update_ok (i : Id) (d : Assignment.data) (s : Store) (x : Assignment.t) :
  assignments s !! i = Some x →
  Prisma.assignment_update i d s
  = (inr tt, with_assignments (<[i := Assignment.apply d x]> (assignments s)) s).
Proof. intros H. unfold Prisma.assignment_update. by rewrite H. Qed.

(** Closing every assignment of a snapshot: when the snapshot rows are
    still in the table the loop succeeds and rewrites exactly them. *)
Lemma forEach_assignment_close (now : DateTime) (l : list (Id * Assignment.t)) (s : Store) :
  NoDup l.*1 →
  Forall (λ a, assignments s !! a.1 = Some a.2) l →
  ∃ m', forEach l (λ a, Prisma.assignment_update a.1 (closeData now a.2)) s
        = (inr tt, with_assignments m' s)
        ∧ ∀ i, m' !! i = if decide (i ∈ l.*1)
                         then (λ x, Assignment.apply (closeData now x) x) <$> assignments s !! i
                         else assignments s !! i.
Proof.
  revert s. induction l as [|[i0 x0] l IH]; intros s Hnd Hall.
  - exists (assignments s). split; [by destruct s|].
    intros i. by rewrite decide_False by set_solver.
  - rewrite fmap_cons in Hnd.
    apply NoDup_cons in Hnd as [Hni Hnd]. apply Forall_cons in Hall as [H0 Hall].
    cbn [fst snd] in H0, Hni.
    set (s1 := with_assignments
                 (<[i0 := Assignment.apply (closeData now x0) x0]> (assignments s)) s).
    destruct (IH s1 Hnd) as (m' & Hrun & Hm').
    { apply Forall_forall. intros [i x] Hin. simpl.
      rewrite lookup_insert_ne.
      - by apply (proj1 (Forall_forall _ _) Hall (i, x)).
      - intros ->. apply Hni. apply list_elem_of_fmap. by exists (i, x). }
    exists m'. split.
    + rewrite forEach_cons. cbn [fst snd].
      rewrite (assignment_update_ok _ _ _ x0) by done. fold s1. by rewrite Hrun.
    + intros i. rewrite Hm'. rewrite fmap_cons. cbn [fst snd assignments s1 with_assignments].
      destruct (decide (i = i0)) as [->|Hne].
      * rewrite decide_False by done. rewrite lookup_insert_eq, H0.
        by rewrite decide_True by set_solver.
      * rewrite lookup_insert_ne by done.
        destruct (decide (i ∈ l.*1)).
        -- by rewrite decide_True by set_solver.
        -- by rewrite decide_False by set_solver.
Qed.




(** *** One open assignment per asset

    The invariant under which C7 reads "the one open assignment of the
    asset" is kept by the three operations that write assignments. *)

Lemma oneOpenPerAsset_unique (s : Store) :
  oneOpenPerAsset s ↔
  ∀ i j x y, assignments s !! i = Some x → assignments s !! j = Some y →
             Assignment.assetId x = Assignment.assetId y →
             Assignment.returnedAt x = None → Assignment.returnedAt y = None → i = j.
Proof.
  unfold oneOpenPerAsset. split.
  - intros Hinv i j x y Hi Hj Hxy Hx Hy.
    pose proof (Hinv i x Hi) as Hsz. simpl in Hsz.
    assert (Prisma.openAssignments (Assignment.assetId x) s !! i = Some x) as Hoi
      by (by apply map_lookup_filter_Some).
    assert (Prisma.openAssignments (Assignment.assetId x) s !! j = Some y) as Hoj
      by (by apply map_lookup_filter_Some).
    rewrite (map_size_le_1_singleton _ i x Hsz Hoi) in Hoj.
    by apply lookup_singleton_Some in Hoj as [? _].
  - intros Huniq k z Hk. simpl.
    destruct (map_choose_or_empty (Prisma.openAssignments (Assignment.assetId z) s))
      as [(i & x & Hi)| ->]; [|by rewrite map_size_empty; lia].
    assert (Prisma.openAssignments (Assignment.assetId z) s = {[ i := x ]}) as ->.
    { apply map_eq. intros j. apply option_eq. intros y.
      rewrite lookup_singleton_Some. split.
      - intros Hj. apply map_lookup_filter_Some in Hi as (Hi & Hxa & Hxo).
        apply map_lookup_filter_Some in Hj as (Hj & Hya & Hyo). simpl in *.
        assert (i = j) as <- by (eapply Huniq; eauto; congruence).
        split; [done|congruence].
      - by intros [<- <-]. }
    by rewrite map_size_singleton.
Qed.

Lemma oneOpenPerAsset_closing (s s' : Store) :
  (∀ i y, assignments s' !! i = Some y → Assignment.returnedAt y = None →
          assignments s !! i = Some y) →
  oneOpenPerAsset s → oneOpenPerAsset s'.
Proof.
  rewrite !oneOpenPerAsset_unique. intros Hsub Huniq i j x y Hi Hj Hxy Hx Hy.
  eapply (Huniq i j x y); eauto.
Qed.

Lemma createAssignment_keeps_oneOpen now r s :
  oneOpenPerAsset s → oneOpenPerAsset (createAssignment now r s).2.
Proof.
  intros Hinv. unfold createAssignment.
  destruct (assets s !! _) as [asset|] eqn:Ha; [|done].
  repeat case_decide; try done.
  destruct (users s !! _) as [assignedUser|]; [|done].
  case_decide; [done|].
  unfold respond.
  pose proof (createAssignment_transaction now r s asset Ha) as Htx.
  cbv zeta in Htx. unfold assignmentRow, targetBase in Htx. rewrite Htx. clear Htx.
  case_decide; [|done]. simpl.
  apply oneOpenPerAsset_unique. rewrite oneOpenPerAsset_unique in Hinv.
  assert (Prisma.openAssignments (CreateAssignment.assetId (CreateAssignment.body_ r)) s = ∅)
    as Hnone.
  { apply dec_stable. by rewrite <-size_pos_nonempty. }
  assert (∀ j y, assignments s !! j = Some y →
                 Assignment.assetId y = CreateAssignment.assetId (CreateAssignment.body_ r) →
                 Assignment.returnedAt y = None → False) as Hold.
  { intros j y Hj Hya Hyo.
    by apply (map_filter_empty_not_lookup _ _ j y Hnone). }
  unfold with_assets, with_assignments. cbn [assignments].
  intros i j x y [[<- <-]|[? Hi]]%lookup_insert_Some [[<- <-]|[? Hj]]%lookup_insert_Some;
    simpl; intros Hxy Hx Hy.
  - done.
  - exfalso. eauto.
  - exfalso. eauto.
  - eauto.
Qed.

Lemma returnAssignment_keeps_oneOpen now r s :
  oneOpenPerAsset s → oneOpenPerAsset (returnAssignment now r s).2.
Proof.
  intros Hinv. unfold returnAssignment.
  destruct (findAssignmentScoped _ _ s) as [x|] eqn:Hf; [|done].
  case_decide; [done|].
  apply findAssignmentScoped_Some in Hf.
  unfold respond.
  pose proof (returnAssignment_transaction now r s x Hf) as Htx.
  unfold returnData in Htx at 1. rewrite Htx. clear Htx.
  destruct (assets s !! Assignment.assetId x); [|done]. simpl.
  eapply oneOpenPerAsset_closing; [|exact Hinv].
  unfold with_assets, with_assignments. cbn [assignments].
  intros i y. by intros [[<- <-]|[? Hi]]%lookup_insert_Some.
Qed.

Lemma expenditure_create_inr x s i s' :
  Prisma.expenditure_create x s = (inr i, s') →
  s' = with_expenditures (<[i := x]> (expenditures s)) s.
Proof.
  unfold Prisma.expenditure_create. case_decide; [|done]. by intros [= <- <-].
Qed.

Lemma createExpenditure_keeps_oneOpen now r s :
  oneOpenPerAsset s → oneOpenPerAsset (createExpenditure now r s).2.
Proof.
  intros Hinv. unfold createExpenditure.
  destruct (assets s !! _) as [asset|] eqn:Ha; [|done].
  repeat case_decide; try done.
  unfold respond.
  destruct (transaction _ s) as [[e|i] s3] eqn:Htx; simpl.
  { by apply transaction_inl in Htx as ->. }
  apply transaction_inr in Htx.
  apply bind_inr in Htx as (i' & s1 & Hcreate & Htx).
  apply bind_inr in Htx as ([] & s2 & Hup & Htx).
  apply bind_inr in Htx as ([] & s3' & Hloop & Hret).
  injection Hret as <- <-.
  apply expenditure_create_inr in Hcreate as ->.
  apply asset_update_inr in Hup as (a & _ & ->).
  set (l := map_to_list (Prisma.openAssignments _ s)) in *.
  set (s2 := with_assets _ _) in *.
  destruct (forEach_assignment_close now l s2) as (m' & Hrun & Hm').
  { apply NoDup_fst_map_to_list. }
  { apply Forall_forall. intros [j x] Hin. simpl.
    apply elem_of_map_to_list, map_lookup_filter_Some in Hin. tauto. }
  unfold closeData in Hrun. rewrite Hrun in Hloop. injection Hloop as <-.
  eapply oneOpenPerAsset_closing; [|exact Hinv].
  unfold with_assignments. cbn [assignments].
  intros j y. rewrite Hm'. case_decide; [|done].
  change (assignments s2) with (assignments s).
  destruct (assignments s !! j); simpl; [|done]. by intros [= <-].
Qed.

(** *** Terminal statuses *)

Lemma availableAssets_not_available ids from s j a :
  j ∈ ids → assets s !! j = Some a → Asset.status a ≠ AssetStatus.AVAILABLE →
  size (availableAssets ids from s) ≠ length ids.
Proof.
  intros Hj Ha Hst Hsz. apply availableAssets_complete in Hsz as [_ Hall].
  destruct (Hall j Hj) as (a' & Ha' & _ & Hav). congruence.
Qed.

Lemma createTransfer_not_available now codes r s j a :
  j ∈ requested r → assets s !! j = Some a → Asset.status a ≠ AssetStatus.AVAILABLE →
  ∃ res, createTransfer now codes r s = Some (res, s) ∧ success res = false.
Proof.
  intros Hj Ha Hst. unfold createTransfer.
  destruct (createTransfer_validate r s) as [res0|] eqn:Hval.
  - exists res0. split; [done|]. by eapply createTransfer_validate_failure.
  - apply createTransfer_validate_None in Hval as (_ & _ & _ & _ & Hsz).
    by eapply availableAssets_not_available in Hsz.
Qed.

(** C1 (as amended): while an asset is EXPENDED, createAssignment,
    createTransfer and createExpenditure naming it are refused and write
    nothing; while it is DECOMMISSIONED, createAssignment and createTransfer
    are refused and write nothing. *)
Theorem C1_terminal_asset_not_claimed (s : Store) (j : Id) (asset : Asset.t) :
  assets s !! j = Some asset →
  Asset.status asset = AssetStatus.EXPENDED
  ∨ Asset.status asset = AssetStatus.DECOMMISSIONED →
  (∀ now r, CreateAssignment.assetId (CreateAssignment.body_ r) = j →
     errorKind (createAssignment now r s).1 = Some ConflictError
     ∧ (createAssignment now r s).2 = s)
  ∧ (∀ now codes r, j ∈ requested r →
       ∃ res, createTransfer now codes r s = Some (res, s) ∧ success res = false)
  ∧ (Asset.status asset = AssetStatus.EXPENDED →
     ∀ now r, CreateExpenditure.assetId (CreateExpenditure.body_ r) = j →
       errorKind (createExpenditure now r s).1 = Some ConflictError
       ∧ (createExpenditure now r s).2 = s).
Proof.
  intros Ha Hst.
  assert (Asset.status asset ≠ AssetStatus.AVAILABLE) as Hna.
  { destruct Hst as [-> | ->]; done. }
  repeat apply conj.
  - intros now r <-. unfold createAssignment. rewrite Ha.
    case_decide; [done|]. by rewrite decide_True.
  - intros now codes r Hj. by apply (createTransfer_not_available now codes r s j asset).
  - intros Hex now r <-. unfold createExpenditure. rewrite Ha.
    case_decide; [done|]. by rewrite decide_True.
Qed.

(** C1, as first stated, fails: an asset update may carry any status, so
    an administrator turns the expended rifle 1 of [Sample.retired] back to
    AVAILABLE. *)
Lemma C1_updateAsset_changes_terminal_status :
  let r := UpdateAsset.mkReq 1%positive
             (UpdateAsset.mkBody None None None None None None None
                                 (Some AssetStatus.AVAILABLE))
             Sample.admin in
  ¬ (Asset.status <$> assets Sample.retired !! 1%positive = Some AssetStatus.EXPENDED →
     Asset.status <$> assets (updateAsset 40 r Sample.retired).2 !! 1%positive
     = Some AssetStatus.EXPENDED).
Proof.
  intros r H. assert (Asset.status <$> assets Sample.retired !! 1%positive
                      = Some AssetStatus.EXPENDED) as H0 by reflexivity.
  apply H in H0. vm_compute in H0. discriminate.
Qed.

(** The other two ways out of a terminal status: an expenditure on a
    decommissioned asset is accepted, and cancelling (or completing) a
    transfer resets its members whatever their status. *)
Lemma createExpenditure_accepts_decommissioned :
  let r := CreateExpenditure.mkReq
             (CreateExpenditure.mkBody 2%positive 1%positive None "Disposal" None None)
             Sample.admin in
  success (createExpenditure 40 r Sample.retired).1 = true
  ∧ Asset.status <$> assets (createExpenditure 40 r Sample.retired).2 !! 2%positive
    = Some AssetStatus.EXPENDED.
Proof. vm_compute. done. Qed.

(** *** Two requests for the same asset *)


(** *** Base scoping of the create operations *)




(** *** The theorems on the sample data *)

Ltac holds :=
  first [ reflexivity
        | vm_compute; reflexivity
        | apply (bool_decide_unpack _); vm_compute; exact I ].

Lemma C1_terminal_asset_not_claimed_witness :
  let r := CreateAssignment.mkReq
             (CreateAssignment.mkBody 1%positive 2%positive 1%positive "Training" None)
             Sample.admin in
  assets Sample.retired !! 1%positive
  = Some (Sample.asset "WP-001-2024" AssetStatus.EXPENDED 1%positive)
  ∧ errorKind (createAssignment 40 r Sample.retired).1 = Some ConflictError
  ∧ (createAssignment 40 r Sample.retired).2 = Sample.retired.
Proof.
  intros r. split; [holds|].
  destruct (C1_terminal_asset_not_claimed Sample.retired 1%positive
              (Sample.asset "WP-001-2024" AssetStatus.EXPENDED 1%positive))
    as (H & _ & _); [holds | left; holds |].
  apply (H 40 r). holds.
Defined.


Lemma C4_transfer_round_trip_witness :
  let rc := CreateTransfer.mkReq (Sample.transferBody [1%positive; 2%positive])
                                 Sample.admin in
  let act := TransferAction.mkReq 1%positive None None Sample.admin in
  ∃ res1 s1, createTransfer 40 ["TRF-LZ1K2-A1B2C"] rc Sample.fresh = Some (res1, s1)
    ∧ wf_store Sample.fresh
    ∧ let out3 := completeTransfer 60 act (approveTransfer 50 act s1).2 in
      success out3.1 = true
      ∧ ∀ j, j ∈ members 1%positive s1 →
          ∃ a, assets out3.2 !! j = Some a
               ∧ Asset.baseId a = 2%positive
               ∧ Asset.status a = AssetStatus.AVAILABLE.
Proof.
  intros rc act. eexists _, _. split; [vm_compute; reflexivity|]. split; [holds|].
  lazymatch goal with
  | |- context [approveTransfer _ _ ?s1] =>
      destruct (C4_transfer_round_trip ["TRF-LZ1K2-A1B2C"] rc Sample.fresh s1
                  (succeed 201 "Transfer created successfully" (Some 1%positive))
                  1%positive 40 50 60 act act) as (_ & H3 & _ & Ha & _);
        [holds | holds | holds | holds | holds | holds | holds | holds | holds |]
  end.
  split; [exact H3 | exact Ha].
Defined.

Lemma C5_cancelTransfer_witness :
  let r := TransferAction.mkReq 1%positive None (Some "Mission scrubbed") Sample.commander in
  let out := cancelTransfer 70 r Sample.inTransit in
  Transfer.status <$> transfers Sample.inTransit !! 1%positive = Some TransferStatus.PENDING
  ∧ out.1 = succeed 200 "Transfer cancelled successfully" (Some 1%positive)
  ∧ Transfer.status <$> transfers out.2 !! 1%positive = Some TransferStatus.CANCELLED
  ∧ assets out.2 !! 2%positive
    = Some (Asset.mk "WP-002-2024" "M4A1 Carbine" (Some "Standard issue rifle") WEAPON
                     AssetStatus.AVAILABLE 1%positive None None None None 5 70).
Proof.
  intros r out. split; [holds|].
  destruct (C5_cancelTransfer 70 r Sample.inTransit
              (Transfer.mk "TRF-LZ1K2-A1B2C" 1%positive 2%positive
                 TransferStatus.PENDING "Redeployment" None 1%positive None None None))
    as (_ & _ & _ & H); [holds|].
  split; [|holds]. apply H; [left; holds | holds | holds].
Defined.


Lemma C7_returnAssignment_witness :
  let r := ReturnAssignment.mkReq 1%positive
             (ReturnAssignment.mkBody (Some "Scope cracked") (Some "DAMAGED"))
             Sample.commander in
  let out := returnAssignment 40 r Sample.assigned in
  findAssignmentScoped Sample.commander 1%positive Sample.assigned
  = Some (Sample.assignment 1%positive None)
  ∧ out.1 = succeed 200 "Asset returned successfully" (Some 1%positive)
  ∧ Asset.status <$> assets out.2 !! 1%positive = Some AssetStatus.MAINTENANCE
  ∧ Assignment.returnedAt <$> assignments out.2 !! 1%positive = Some (Some 40)
  ∧ returnAssignment 50 r out.2 = (failure 400 "Asset has already been returned", out.2).
Proof.
  intros r out. split; [holds|].
  destruct (C7_returnAssignment 40 r Sample.assigned (Sample.assignment 1%positive None))
    as (_ & H2 & H3 & _); [holds|].
  split; [apply H3; holds|].
  destruct H2 as (a & st & _ & _ & _ & Hd & _ & _ & _ & Hst & Hret & H); [holds|].
  split; [|split; [exact Hret | apply H]].
  rewrite <-(Hd eq_refl). exact Hst.
Defined.

Lemma C8_createAssignment_witness :
  let r := CreateAssignment.mkReq
             (CreateAssignment.mkBody 1%positive 2%positive 1%positive "Training" None)
             Sample.admin in
  let out := createAssignment 40 r Sample.fresh in
  assets Sample.fresh !! 1%positive
  = Some (Sample.asset "WP-001-2024" AssetStatus.AVAILABLE 1%positive)
  ∧ success out.1 = true
  ∧ ∃ i, out.1 = succeed 201 "Asset assigned successfully" (Some i)
         ∧ assignments Sample.fresh !! i = None
         ∧ Asset.status <$> assets out.2 !! 1%positive = Some AssetStatus.ASSIGNED
         ∧ assignments out.2 !! i = Some (assignmentRow 40 r).
Proof.
  intros r out. split; [holds|].
  destruct (C8_createAssignment 40 r Sample.fresh
              (Sample.asset "WP-001-2024" AssetStatus.AVAILABLE 1%positive))
    as (_ & H & _); [holds|].
  split; [holds|].
  destruct H as (i & H1 & H2 & _ & H4 & H5 & _); [holds|].
  exists i. done.
Defined.



(** *** Invariants kept by every database action *)

Section preserves.
Context (P : Store → Prop).

Lemma preserves_ret {A} (a : A) : preserves P (mret a).
Proof. intros s r s' HP [= <- <-]. done. Qed.

Lemma preserves_bind {A B} (m : Db A) (k : A → Db B) :
  preserves P m → (∀ a, preserves P (k a)) → preserves P (m ≫= k).
Proof.
  intros Hm Hk s r s' HP. rewrite bind_run.
  destruct (m s) as [[e|a] s1] eqn:Hms.
  - intros [= <- <-]. by eapply Hm.
  - intros Hrun. eapply Hk; [|exact Hrun]. by eapply Hm.
Qed.

Lemma preserves_forEach {A} (xs : list A) (f : A → Db unit) :
  (∀ x, preserves P (f x)) → preserves P (forEach xs f).
Proof.
  intros Hf. induction xs as [|x xs IH]; simpl.
  - apply preserves_ret.
  - apply preserves_bind; [apply Hf|]. intros _. apply IH.
Qed.

Lemma preserves_transaction {A} (body : Db A) :
  preserves P body → preserves P (transaction body).
Proof.
  intros Hb s r s' HP. unfold transaction.
  destruct (body s) as [[e|a] s1] eqn:Hbs.
  - intros [= <- <-]. done.
  - intros [= <- <-]. by eapply Hb.
Qed.

Lemma preserves_respond {A} (m : Db A) onOk onErr s :
  preserves P m → P s → P (respond m onOk onErr s).2.
Proof.
  intros Hm HP. unfold respond.
  destruct (m s) as [[e|a] s1] eqn:Hms; simpl; by eapply Hm.
Qed.
End preserves.

(** *** Referential integrity *)

Lemma wf_asset_create a : preserves wf_store (Prisma.asset_create a).
Proof.
  intros s r s' Hwf. unfold Prisma.asset_create.
  repeat case_decide; intros [= <- <-]; try done.
  destruct Hwf as (H1 & H2 & H3 & H4 & H5). destruct s; simpl in *.
  repeat apply conj; try done; simpl.
  - by apply map_Forall_insert_2.
  - eapply map_Forall_impl; [exact H3|]. simpl. intros ?? [? ?]. set_solver.
  - eapply map_Forall_impl; [exact H4|]. simpl. intros ?? (?&?&?&?). set_solver.
  - eapply map_Forall_impl; [exact H5|]. simpl. intros ?? (?&?&?). set_solver.
Qed.

Lemma wf_asset_update now i d : preserves wf_store (Prisma.asset_update now i d).
Proof.
  intros s r s' Hwf. unfold Prisma.asset_update.
  destruct (assets s !! i) as [a|] eqn:Ha; [|by intros [= <- <-]].
  case_match; [by intros [= <- <-]|].
  case_match eqn:Hfk; intros [= <- <-]; [|done].
  destruct Hwf as (H1 & H2 & H3 & H4 & H5). destruct s; simpl in *.
  assert (dom (<[i := Asset.apply now d a]> assets0) = dom assets0) as Hdom.
  { rewrite dom_insert_L. apply elem_of_dom_2 in Ha. set_solver. }
  repeat apply conj; try done; simpl; rewrite ?Hdom; try done.
  apply map_Forall_insert_2; [|done]. simpl.
  destruct (Asset.d_baseId d) as [b|]; simpl in *.
  - unfold Prisma.references in Hfk. by apply bool_decide_eq_true_1 in Hfk.
  - by apply (H1 i a).
Qed.

Lemma wf_asset_delete i : preserves wf_store (Prisma.asset_delete i).
Proof.
  intros s r s' Hwf. unfold Prisma.asset_delete.
  destruct (assets s !! i) as [a|] eqn:Ha; [|by intros [= <- <-]].
  case_decide as Hfree; intros [= <- <-]; [|done].
  destruct Hfree as (Hf1 & Hf2 & Hf3).
  unfold Prisma.assetAssignments, Prisma.assetTransferItems, Prisma.assetExpenditures in *.
  rewrite map_empty_filter in Hf1. rewrite map_empty_filter in Hf2.
  rewrite map_empty_filter in Hf3.
  destruct Hwf as (H1 & H2 & H3 & H4 & H5). destruct s; simpl in *.
  repeat apply conj; try done; simpl.
  - by apply map_Forall_delete.
  - intros j it Hj. destruct (H3 j it Hj) as [? ?]. split; [done|].
    rewrite dom_delete. apply elem_of_difference. split; [done|].
    intros Heq%elem_of_singleton. by apply (Hf2 j it Hj).
  - intros j x Hj. destruct (H4 j x Hj) as (?&?&?&?). repeat split; try done.
    rewrite dom_delete. apply elem_of_difference. split; [done|].
    intros Heq%elem_of_singleton. by apply (Hf1 j x Hj).
  - intros j x Hj. destruct (H5 j x Hj) as (?&?&?). repeat split; try done.
    rewrite dom_delete. apply elem_of_difference. split; [done|].
    intros Heq%elem_of_singleton. by apply (Hf3 j x Hj).
Qed.

Lemma wf_transfer_create t : preserves wf_store (Prisma.transfer_create t).
Proof.
  intros s r s' Hwf. unfold Prisma.transfer_create.
  case_decide; [by intros [= <- <-]|].
  destruct (bool_decide _ && _) eqn:Hfk; intros [= <- <-]; [|done].
  apply andb_true_iff in Hfk as [Hfk%bool_decide_eq_true_1 _].
  destruct Hwf as (H1 & H2 & H3 & H4 & H5). destruct s; simpl in *.
  repeat apply conj; try done; simpl.
  - by apply map_Forall_insert_2.
  - eapply map_Forall_impl; [exact H3|]. simpl. intros ?? [? ?]. set_solver.
Qed.

Lemma wf_transfer_update i d : preserves wf_store (Prisma.transfer_update i d).
Proof.
  intros s r s' Hwf. unfold Prisma.transfer_update.
  destruct (transfers s !! i) as [t|] eqn:Ht; [|by intros [= <- <-]].
  case_match; intros [= <- <-]; [|done].
  destruct Hwf as (H1 & H2 & H3 & H4 & H5). destruct s; simpl in *.
  assert (dom (<[i := Transfer.apply d t]> transfers0) = dom transfers0) as Hdom.
  { rewrite dom_insert_L. apply elem_of_dom_2 in Ht. set_solver. }
  repeat apply conj; try done; simpl; rewrite ?Hdom; try done.
  apply map_Forall_insert_2; [|done]. by apply (H2 i t).
Qed.

Lemma wf_transferItem_create it : preserves wf_store (Prisma.transferItem_create it).
Proof.
  intros s r s' Hwf. unfold Prisma.transferItem_create.
  repeat case_decide; intros [= <- <-]; try done.
  destruct Hwf as (H1 & H2 & H3 & H4 & H5). destruct s; simpl in *.
  repeat apply conj; try done; simpl. by apply map_Forall_insert_2.
Qed.

Lemma wf_assignment_create x : preserves wf_store (Prisma.assignment_create x).
Proof.
  intros s r s' Hwf. unfold Prisma.assignment_create.
  case_decide; intros [= <- <-]; [|done].
  destruct Hwf as (H1 & H2 & H3 & H4 & H5). destruct s; simpl in *.
  repeat apply conj; try done; simpl. by apply map_Forall_insert_2.
Qed.

Lemma wf_assignment_update i d : preserves wf_store (Prisma.assignment_update i d).
Proof.
  intros s r s' Hwf. unfold Prisma.assignment_update.
  destruct (assignments s !! i) as [x|] eqn:Hx; intros [= <- <-]; [|done].
  destruct Hwf as (H1 & H2 & H3 & H4 & H5). destruct s; simpl in *.
  repeat apply conj; try done; simpl.
  apply map_Forall_insert_2; [|done]. by apply (H4 i x).
Qed.

Lemma wf_expenditure_create x : preserves wf_store (Prisma.expenditure_create x).
Proof.
  intros s r s' Hwf. unfold Prisma.expenditure_create.
  case_decide; intros [= <- <-]; [|done].
  destruct Hwf as (H1 & H2 & H3 & H4 & H5). destruct s; simpl in *.
  repeat apply conj; try done; simpl. by apply map_Forall_insert_2.
Qed.

Create HintDb preserves discriminated.
#[local] Hint Resolve preserves_ret preserves_bind preserves_forEach
  preserves_transaction wf_asset_create wf_asset_update wf_asset_delete
  wf_transfer_create wf_transfer_update wf_transferItem_create
  wf_assignment_create wf_assignment_update wf_expenditure_create : preserves.

(** A controller leaves its invariant alone on every early answer, and
    its one database action keeps it. *)
Ltac controller_keeps :=
  repeat case_match; simpl; try done;
  apply preserves_respond; [|done]; eauto 10 with preserves.

Lemma wf_createAsset now r s : wf_store s → wf_store (createAsset now r s).2.
Proof. intros Hwf. unfold createAsset. controller_keeps. Qed.

Lemma wf_updateAsset now r s : wf_store s → wf_store (updateAsset now r s).2.
Proof. intros Hwf. unfold updateAsset. controller_keeps. Qed.

Lemma wf_deleteAsset r s : wf_store s → wf_store (deleteAsset r s).2.
Proof. intros Hwf. unfold deleteAsset. controller_keeps. Qed.

Lemma wf_createAssignment now r s : wf_store s → wf_store (createAssignment now r s).2.
Proof. intros Hwf. unfold createAssignment. controller_keeps. Qed.

Lemma wf_returnAssignment now r s : wf_store s → wf_store (returnAssignment now r s).2.
Proof. intros Hwf. unfold returnAssignment. controller_keeps. Qed.

Lemma wf_createExpenditure now r s : wf_store s → wf_store (createExpenditure now r s).2.
Proof. intros Hwf. unfold createExpenditure. controller_keeps. Qed.

Lemma wf_createTransfer now codes r s res s' :
  wf_store s → createTransfer now codes r s = Some (res, s') → wf_store s'.
Proof.
  intros Hwf. unfold createTransfer, createTransfer_commit.
  destruct (createTransfer_validate r s); [by intros [= <- <-]|].
  destruct (uniqueTransferCode codes s) as [code|]; [|done]. simpl.
  intros [= Hrun]. apply (f_equal snd) in Hrun. simpl in Hrun. subst s'.
  apply preserves_respond; [|done]. unfold createTransfer_body.
  eauto 10 with preserves.
Qed.

Lemma wf_approveTransfer now r s : wf_store s → wf_store (approveTransfer now r s).2.
Proof. intros Hwf. unfold approveTransfer. controller_keeps. Qed.

Lemma wf_completeTransfer now r s : wf_store s → wf_store (completeTransfer now r s).2.
Proof. intros Hwf. unfold completeTransfer. controller_keeps. Qed.

Lemma wf_cancelTransfer now r s : wf_store s → wf_store (cancelTransfer now r s).2.
Proof. intros Hwf. unfold cancelTransfer. controller_keeps. Qed.

(** *** Unique columns *)

Lemma uk_asset_create a : preserves uniqueKeys (Prisma.asset_create a).
Proof.
  intros s r s' Huk. unfold Prisma.asset_create.
  case_decide as Hsn; [by intros [= <- <-]|].
  case_decide; intros [= <- <-]; [|done].
  destruct Huk as (H1 & H2 & H3). split; [|done]. simpl.
  intros i j x y [[<- <-]|[? Hi]]%lookup_insert_Some [[<- <-]|[? Hj]]%lookup_insert_Some Hxy;
    try done.
  - destruct Hsn. exists j, y. done.
  - destruct Hsn. exists i, x. done.
  - by eapply H1.
Qed.

Lemma uk_asset_update now i d : preserves uniqueKeys (Prisma.asset_update now i d).
Proof.
  intros s r s' Huk. unfold Prisma.asset_update.
  destruct (assets s !! i) as [a|] eqn:Ha; [|by intros [= <- <-]].
  destruct (from_option _ false _) eqn:Hsn; [by intros [= <- <-]|].
  case_match; intros [= <- <-]; [|done].
  destruct Huk as (H1 & H2 & H3). split; [|done]. simpl.
  assert (∀ j y, j ≠ i → assets s !! j = Some y →
                 Asset.serialNumber y ≠ Asset.serialNumber (Asset.apply now d a)) as Hother.
  { intros j y Hne Hj Heq. simpl in Heq.
    destruct (Asset.d_serialNumber d) as [sn|]; simpl in *.
    - apply bool_decide_eq_false_1 in Hsn. apply Hsn. exists j, y. done.
    - apply Hne. by eapply H1. }
  intros j k x y [[<- <-]|[? Hj]]%lookup_insert_Some [[<- <-]|[? Hk]]%lookup_insert_Some Hxy;
    try done.
  - exfalso. by eapply Hother.
  - exfalso. by eapply Hother.
  - by eapply H1.
Qed.

Lemma uk_asset_delete i : preserves uniqueKeys (Prisma.asset_delete i).
Proof.
  intros s r s' Huk. unfold Prisma.asset_delete.
  destruct (assets s !! i); [|by intros [= <- <-]].
  case_decide; intros [= <- <-]; [|done].
  destruct Huk as (H1 & H2 & H3). split; [|done]. simpl.
  intros j k x y [_ Hj]%lookup_delete_Some [_ Hk]%lookup_delete_Some. by eapply H1.
Qed.

Lemma uk_transfer_create t : preserves uniqueKeys (Prisma.transfer_create t).
Proof.
  intros s r s' Huk. unfold Prisma.transfer_create.
  case_decide as Hc; [by intros [= <- <-]|].
  case_match; intros [= <- <-]; [|done].
  destruct Huk as (H1 & H2 & H3). split; [done|]. split; [|done]. simpl.
  intros i j x y [[<- <-]|[? Hi]]%lookup_insert_Some [[<- <-]|[? Hj]]%lookup_insert_Some Hxy;
    try done.
  - destruct Hc. exists j, y. done.
  - destruct Hc. exists i, x. done.
  - by eapply H2.
Qed.

Lemma uk_transfer_update i d : preserves uniqueKeys (Prisma.transfer_update i d).
Proof.
  intros s r s' Huk. unfold Prisma.transfer_update.
  destruct (transfers s !! i) as [t|] eqn:Ht; [|by intros [= <- <-]].
  case_match; intros [= <- <-]; [|done].
  destruct Huk as (H1 & H2 & H3). split; [done|]. split; [|done]. simpl.
  intros j k x y [[<- <-]|[? Hj]]%lookup_insert_Some [[<- <-]|[? Hk]]%lookup_insert_Some Hxy;
    try done; simpl in *.
  - by eapply H2.
  - by eapply H2.
  - by eapply H2.
Qed.

Lemma uk_transferItem_create it : preserves uniqueKeys (Prisma.transferItem_create it).
Proof.
  intros s r s' Huk. unfold Prisma.transferItem_create.
  case_decide as Hc; [by intros [= <- <-]|].
  case_decide; intros [= <- <-]; [|done].
  destruct Huk as (H1 & H2 & H3). split; [done|]. split; [done|]. simpl.
  intros i j x y [[<- <-]|[? Hi]]%lookup_insert_Some [[<- <-]|[? Hj]]%lookup_insert_Some
    Ht Ha; try done.
  - destruct Hc. exists j, y. done.
  - destruct Hc. exists i, x. done.
  - by eapply H3.
Qed.

Lemma uk_assignment_create x : preserves uniqueKeys (Prisma.assignment_create x).
Proof.
  intros s r s' Huk. unfold Prisma.assignment_create.
  case_decide; intros [= <- <-]; done.
Qed.

Lemma uk_assignment_update i d : preserves uniqueKeys (Prisma.assignment_update i d).
Proof.
  intros s r s' Huk. unfold Prisma.assignment_update.
  case_match; intros [= <- <-]; done.
Qed.

Lemma uk_expenditure_create x : preserves uniqueKeys (Prisma.expenditure_create x).
Proof.
  intros s r s' Huk. unfold Prisma.expenditure_create.
  case_decide; intros [= <- <-]; done.
Qed.

#[local] Hint Resolve uk_asset_create uk_asset_update uk_asset_delete
  uk_transfer_create uk_transfer_update uk_transferItem_create
  uk_assignment_create uk_assignment_update uk_expenditure_create : preserves.

Lemma uk_createAsset now r s : uniqueKeys s → uniqueKeys (createAsset now r s).2.
Proof. intros Huk. unfold createAsset. controller_keeps. Qed.

Lemma uk_updateAsset now r s : uniqueKeys s → uniqueKeys (updateAsset now r s).2.
Proof. intros Huk. unfold updateAsset. controller_keeps. Qed.

Lemma uk_deleteAsset r s : uniqueKeys s → uniqueKeys (deleteAsset r s).2.
Proof. intros Huk. unfold deleteAsset. controller_keeps. Qed.

Lemma uk_createAssignment now r s : uniqueKeys s → uniqueKeys (createAssignment now r s).2.
Proof. intros Huk. unfold createAssignment. controller_keeps. Qed.

Lemma uk_returnAssignment now r s : uniqueKeys s → uniqueKeys (returnAssignment now r s).2.
Proof. intros Huk. unfold returnAssignment. controller_keeps. Qed.

Lemma uk_createExpenditure now r s :
  uniqueKeys s → uniqueKeys (createExpenditure now r s).2.
Proof. intros Huk. unfold createExpenditure. controller_keeps. Qed.

Lemma uk_createTransfer now codes r s res s' :
  uniqueKeys s → createTransfer now codes r s = Some (res, s') → uniqueKeys s'.
Proof.
  intros Huk. unfold createTransfer, createTransfer_commit.
  destruct (createTransfer_validate r s); [by intros [= <- <-]|].
  destruct (uniqueTransferCode codes s) as [code|]; [|done]. simpl.
  intros [= Hrun]. apply (f_equal snd) in Hrun. simpl in Hrun. subst s'.
  apply preserves_respond; [|done]. unfold createTransfer_body.
  eauto 10 with preserves.
Qed.

Lemma uk_approveTransfer now r s : uniqueKeys s → uniqueKeys (approveTransfer now r s).2.
Proof. intros Huk. unfold approveTransfer. controller_keeps. Qed.

Lemma uk_completeTransfer now r s : uniqueKeys s → uniqueKeys (completeTransfer now r s).2.
Proof. intros Huk. unfold completeTransfer. controller_keeps. Qed.

Lemma uk_cancelTransfer now r s : uniqueKeys s → uniqueKeys (cancelTransfer now r s).2.
Proof. intros Huk. unfold cancelTransfer. controller_keeps. Qed.

(** *** One open assignment per asset, for the controllers that write no
    assignment *)

Section assignments_kept.
Context (m : gmap Id Assignment.t).
Let P (s : Store) : Prop := assignments s = m.

Lemma asg_asset_create a : preserves P (Prisma.asset_create a).
Proof.
  intros s r s' HP. unfold Prisma.asset_create.
  repeat case_decide; intros [= <- <-]; done.
Qed.

Lemma asg_asset_update now i d : preserves P (Prisma.asset_update now i d).
Proof.
  intros s r s' HP. unfold Prisma.asset_update.
  repeat case_match; intros [= <- <-]; done.
Qed.

Lemma asg_asset_delete i : preserves P (Prisma.asset_delete i).
Proof.
  intros s r s' HP. unfold Prisma.asset_delete.
  destruct (assets s !! i); [|by intros [= <- <-]].
  case_decide; intros [= <- <-]; done.
Qed.

Lemma asg_transfer_create t : preserves P (Prisma.transfer_create t).
Proof.
  intros s r s' HP. unfold Prisma.transfer_create.
  case_decide; [by intros [= <- <-]|]. case_match; intros [= <- <-]; done.
Qed.

Lemma asg_transfer_update i d : preserves P (Prisma.transfer_update i d).
Proof.
  intros s r s' HP. unfold Prisma.transfer_update.
  repeat case_match; intros [= <- <-]; done.
Qed.

Lemma asg_transferItem_create it : preserves P (Prisma.transferItem_create it).
Proof.
  intros s r s' HP. unfold Prisma.transferItem_create.
  repeat case_decide; intros [= <- <-]; done.
Qed.
End assignments_kept.

#[local] Hint Resolve asg_asset_create asg_asset_update asg_asset_delete
  asg_transfer_create asg_transfer_update asg_transferItem_create : preserves.

Lemma oneOpenPerAsset_assignments s s' :
  assignments s' = assignments s → oneOpenPerAsset s → oneOpenPerAsset s'.
Proof.
  intros Heq. unfold oneOpenPerAsset, Prisma.openAssignments. by rewrite Heq.
Qed.

Lemma assignments_createAsset now r s :
  assignments (createAsset now r s).2 = assignments s.
Proof. unfold createAsset. controller_keeps. Qed.

Lemma assignments_updateAsset now r s :
  assignments (updateAsset now r s).2 = assignments s.
Proof. unfold updateAsset. controller_keeps. Qed.

Lemma assignments_deleteAsset r s : assignments (deleteAsset r s).2 = assignments s.
Proof. unfold deleteAsset. controller_keeps. Qed.

Lemma assignments_createTransfer now codes r s res s' :
  createTransfer now codes r s = Some (res, s') → assignments s' = assignments s.
Proof.
  unfold createTransfer, createTransfer_commit.
  destruct (createTransfer_validate r s); [by intros [= <- <-]|].
  destruct (uniqueTransferCode codes s) as [code|]; [|done]. simpl.
  intros [= Hrun]. apply (f_equal snd) in Hrun. simpl in Hrun. subst s'.
  apply (preserves_respond (λ s', assignments s' = assignments s)); [|done].
  unfold createTransfer_body. eauto 10 with preserves.
Qed.

Lemma assignments_approveTransfer now r s :
  assignments (approveTransfer now r s).2 = assignments s.
Proof. unfold approveTransfer. controller_keeps. Qed.

Lemma assignments_completeTransfer now r s :
  assignments (completeTransfer now r s).2 = assignments s.
Proof. unfold completeTransfer. controller_keeps. Qed.

Lemma assignments_cancelTransfer now r s :
  assignments (cancelTransfer now r s).2 = assignments s.
Proof. unfold cancelTransfer. controller_keeps. Qed.

(** *** The invariants through the API *)

Lemma api_inv (P : Store → Prop) env token e s res s' :
  (∀ user res s', controller env e user s = Some (res, s') → P s') →
  P s → api env token e s = Some (res, s') → P s'.
Proof.
  intros Hc HP. unfold api.
  destruct (authMiddleware token s) as [r0|user]; [by intros [= <- <-]|].
  destruct (from_option _ None _); [by intros [= <- <-]|]. apply Hc.
Qed.

Lemma serve_inv (P : Store → Prop) requests s s' :
  (∀ env token e s res s', P s → api env token e s = Some (res, s') → P s') →
  P s → serve requests s = Some s' → P s'.
Proof.
  intros Hstep. revert s. induction requests as [|[[env token] e] requests IH]; intros s HP.
  - by intros [= <-].
  - simpl. destruct (api env token e s) as [[res s1]|] eqn:Hrun; [|done].
    apply IH. by eapply Hstep.
Qed.

Ltac by_controller :=
  lazymatch goal with
  | |- Some (?f, _) = Some (_, _) → _ => intros [= _ <-]; try done
  | |- Some ?out = Some (_, _) → _ =>
      let H := fresh in
      intros [= H]; apply (f_equal snd) in H; simpl in H; subst; eauto
  | |- _ => eauto
  end.

Lemma controller_wf env e user s res s' :
  wf_store s → controller env e user s = Some (res, s') → wf_store s'.
Proof.
  intros Hwf. destruct e; simpl; try by_controller.
  - by apply wf_createAsset.
  - by apply wf_updateAsset.
  - by apply wf_deleteAsset.
  - by apply wf_createAssignment.
  - by apply wf_returnAssignment.
  - by apply wf_createTransfer.
  - by apply wf_approveTransfer.
  - by apply wf_completeTransfer.
  - by apply wf_cancelTransfer.
  - by apply wf_createExpenditure.
Qed.

Lemma controller_uk env e user s res s' :
  uniqueKeys s → controller env e user s = Some (res, s') → uniqueKeys s'.
Proof.
  intros Huk. destruct e; simpl; try by_controller.
  - by apply uk_createAsset.
  - by apply uk_updateAsset.
  - by apply uk_deleteAsset.
  - by apply uk_createAssignment.
  - by apply uk_returnAssignment.
  - by apply uk_createTransfer.
  - by apply uk_approveTransfer.
  - by apply uk_completeTransfer.
  - by apply uk_cancelTransfer.
  - by apply uk_createExpenditure.
Qed.

Lemma controller_oneOpen env e user s res s' :
  oneOpenPerAsset s → controller env e user s = Some (res, s') → oneOpenPerAsset s'.
Proof.
  intros Hinv. destruct e; simpl; try by_controller.
  - eapply oneOpenPerAsset_assignments; [apply assignments_createAsset|done].
  - eapply oneOpenPerAsset_assignments; [apply assignments_updateAsset|done].
  - eapply oneOpenPerAsset_assignments; [apply assignments_deleteAsset|done].
  - by apply createAssignment_keeps_oneOpen.
  - by apply returnAssignment_keeps_oneOpen.
  - intros Hrun. eapply oneOpenPerAsset_assignments; [|exact Hinv].
    by eapply assignments_createTransfer.
  - eapply oneOpenPerAsset_assignments; [apply assignments_approveTransfer|done].
  - eapply oneOpenPerAsset_assignments; [apply assignments_completeTransfer|done].
  - eapply oneOpenPerAsset_assignments; [apply assignments_cancelTransfer|done].
  - by apply createExpenditure_keeps_oneOpen.
Qed.

(** X1: referential integrity is an invariant of the API.  If every
    foreign key of the store points at a row of the store, it still does
    after any sequence of requests served one after the other, whoever
    makes them and whatever they answer. *)
Theorem serve_keeps_wf_store (requests : list (Env * Token * Endpoint)) (s s' : Store) :
  wf_store s → serve requests s = Some s' → wf_store s'.
Proof.
  apply serve_inv. intros env token e s0 res s1 Hwf. apply api_inv; [|done].
  intros user res' s2. by apply controller_wf.
Qed.

(** X2: the unique columns of the schema stay unique.  If no two assets
    share a serial number, no two transfers a code and no two items the
    same transfer and asset, the same holds after any sequence of requests
    served one after the other. *)
Theorem serve_keeps_uniqueKeys (requests : list (Env * Token * Endpoint)) (s s' : Store) :
  uniqueKeys s → serve requests s = Some s' → uniqueKeys s'.
Proof.
  apply serve_inv. intros env token e s0 res s1 Huk. apply api_inv; [|done].
  intros user res' s2. by apply controller_uk.
Qed.

(** X3: requests served one after the other never leave an asset with
    two open assignments: if every asset has at most one assignment with
    [returnedAt = null], the same holds after any sequence of requests. *)
Theorem serve_keeps_oneOpenPerAsset (requests : list (Env * Token * Endpoint))
    (s s' : Store) :
  oneOpenPerAsset s → serve requests s = Some s' → oneOpenPerAsset s'.
Proof.
  apply serve_inv. intros env token e s0 res s1 Hinv. apply api_inv; [|done].
  intros user res' s2. by apply controller_oneOpen.
Qed.
